(** * spare-tire: wheel renaming and the renaming index proxy

    A shallow embedding of [src/spare_tire/rename.py],
    [src/spare_tire/download.py] and, of the proxy in
    [src/spare_tire/server], [config.py], [stream.py], [html.py],
    [upstream.py] and [app.py]; the properties of the specification
    established (or refuted) on it, and further properties of the code.

    Conventions of the embedding.
    - A Python [str] is a [string]: the sequence of its UTF-8 bytes.
      Comparison, concatenation, [startswith], [split], [replace] and
      sorting agree with Python on such strings.  The operations that
      depend on a character class ([lower], [isdigit], the regex classes
      [\w], [\s] and [\b]) are modelled on ASCII, which is the alphabet
      of wheel names and tags; decoding the content of an entry rejects
      non-ASCII bytes (see [Py.decode_utf8]).
    - Python [bytes] are [list byte].
    - An exception is a value of [exn]; a function that may raise returns
      a [result].
    - A zip archive is the list of its entries in central-directory
      order, as [ZipFile.namelist] reports them. *)

From Stdlib Require Import ZArith Ascii DecimalString.
From Stdlib.Strings Require Import Byte.
From stdpp Require Import gmap strings list sorting.

(** ** Exceptions and results *)

Inductive exn : Type :=
  | FileNotFoundError            (* "Wheel not found: ..." *)
  | NotAWheelFile                (* ValueError "Not a wheel file: ..." *)
  | InvalidWheelFilename         (* ValueError "Invalid wheel filename: ..." *)
  | SameNameError                (* ValueError "New name ... is the same as old name ..." *)
  | NoDistInfoError              (* ValueError "Cannot find .dist-info directory in wheel" *)
  | IndexError                   (* indexing an empty string *)
  | BadZipFile                   (* zipfile could not read the archive *)
  | KeyError                     (* no archive member of that name *)
  | UnicodeDecodeError           (* content.decode("utf-8") failed, or is outside ASCII *)
  | TemplateEscape               (* the replacement template holds a backslash: its
                                    expansion by the regex engine is not modelled *)
  | RuntimeError                 (* "Client not initialized. ..." *)
  | InvalidSpecifier             (* packaging.specifiers.InvalidSpecifier *)
  | PageError.                   (* pypi_simple could not read the page *)

Inductive result (A : Type) : Type :=
  | Ok (a : A)
  | Raise (e : exn).
Arguments Ok {A} a.
Arguments Raise {A} e.

Definition bind {A B} (r : result A) (k : A → result B) : result B :=
  match r with
  | Ok a => k a
  | Raise e => Raise e
  end.

Notation "x ←! r ; k" := (bind r (λ x, k))
  (at level 100, r at next level, right associativity).

#[global] Instance exn_eq_dec : EqDecision exn.
Proof. solve_decision. Defined.

#[global] Instance byte_eq_dec : EqDecision byte := Byte.byte_eq_dec.

(** ** Python built-ins used by the sources *)

Module Py.

(** [len(s)] *)
Abbreviation len := String.length.

(** [s[n:]] *)
Fixpoint slice_from (n : nat) (s : string) : string :=
  match n, s with
  | O, _ => s
  | S n', String _ s' => slice_from n' s'
  | S _, EmptyString => EmptyString
  end.

(** [s[:n]] *)
Fixpoint slice_to (n : nat) (s : string) : string :=
  match n, s with
  | O, _ => EmptyString
  | S n', String c s' => String c (slice_to n' s')
  | S _, EmptyString => EmptyString
  end.

(** [s.startswith(p)] *)
Definition startswith (s p : string) : bool := String.prefix p s.

(** [s.endswith(p)] *)
Definition endswith (s p : string) : bool :=
  (len p <=? len s) && bool_decide (slice_from (len s - len p) s = p).

(** [sub in s] *)
Fixpoint contains (sub s : string) : bool :=
  startswith s sub ||
  match s with
  | EmptyString => false
  | String _ s' => contains sub s'
  end.

(** [s.split(sep)] for a one-character separator *)
Fixpoint split (sep : ascii) (s : string) : list string :=
  match s with
  | EmptyString => [EmptyString]
  | String c s' =>
      if Ascii.eqb c sep then EmptyString :: split sep s'
      else match split sep s' with
           | [] => [String c EmptyString]
           | h :: t => String c h :: t
           end
  end.

(** [sep.join(parts)] *)
Definition join (sep : string) (parts : list string) : string :=
  String.concat sep parts.

(** [s.rfind(c)] for a one-character needle, counted from [i] *)
Fixpoint rfind_from (c : ascii) (i : nat) (s : string) : option nat :=
  match s with
  | EmptyString => None
  | String x s' =>
      match rfind_from c (S i) s' with
      | Some j => Some j
      | None => if Ascii.eqb x c then Some i else None
      end
  end.
Definition rfind (c : ascii) (s : string) : option nat := rfind_from c 0 s.

(** [s.rsplit(sep, 1)] for a one-character separator *)
Definition rsplit1 (sep : ascii) (s : string) : list string :=
  match rfind sep s with
  | Some i => [slice_to i s; slice_from (S i) s]
  | None => [s]
  end.

(** [s.replace(old, new)] for a non-empty [old]: the occurrences are
    taken from left to right and do not overlap.  [skip] counts the
    characters of a match that are still to be consumed. *)
Fixpoint replace_go (old new : string) (skip : nat) (s : string) : string :=
  match s with
  | EmptyString => EmptyString
  | String c s' =>
      match skip with
      | S k => replace_go old new k s'
      | O =>
          if startswith s old
          then new +:+ replace_go old new (len old - 1) s'
          else String c (replace_go old new 0 s')
      end
  end.
Definition replace (old new s : string) : string := replace_go old new 0 s.

(** [s.replace(old, new, 1)] for a non-empty [old]: only the leftmost
    occurrence is replaced. *)
Fixpoint replace1 (old new s : string) : string :=
  match s with
  | EmptyString => EmptyString
  | String c s' =>
      if startswith s old then new +:+ slice_from (len old) s
      else String c (replace1 old new s')
  end.

Definition is_upper (c : ascii) : bool :=
  let n := N_of_ascii c in (65 <=? n)%N && (n <=? 90)%N.
Definition is_lower (c : ascii) : bool :=
  let n := N_of_ascii c in (97 <=? n)%N && (n <=? 122)%N.
(** [c.isdigit()] *)
Definition isdigit (c : ascii) : bool :=
  let n := N_of_ascii c in (48 <=? n)%N && (n <=? 57)%N.
Definition is_ascii (c : ascii) : bool := (N_of_ascii c <? 128)%N.

Definition lower_char (c : ascii) : ascii :=
  if is_upper c then ascii_of_N (N_of_ascii c + 32) else c.

(** [s.lower()] *)
Fixpoint lower (s : string) : string :=
  match s with
  | EmptyString => EmptyString
  | String c s' => String (lower_char c) (lower s')
  end.

(** [s.rstrip(chars)] for a one-character set *)
Fixpoint rstrip (c : ascii) (s : string) : string :=
  match s with
  | EmptyString => EmptyString
  | String x s' =>
      match rstrip c s' with
      | EmptyString => if Ascii.eqb x c then EmptyString else String x EmptyString
      | r => String x r
      end
  end.

(** [str(n)] for a non-negative integer *)
Definition str_of_nat (n : nat) : string :=
  NilZero.string_of_uint (Nat.to_uint n).

(** The regex classes [\w] and [\s] on ASCII.  For [str] patterns [\s]
    also matches the separators U+001C..U+001F. *)
Definition is_word (c : ascii) : bool :=
  is_upper c || is_lower c || isdigit c || Ascii.eqb c "_".
Definition is_space (c : ascii) : bool :=
  let n := N_of_ascii c in
  ((9 <=? n)%N && (n <=? 13)%N) || ((28 <=? n)%N && (n <=? 32)%N).

Definition is_word_opt (c : option ascii) : bool :=
  match c with Some x => is_word x | None => false end.

(** [\b] between the character before ([prev]) and the one after
    ([next]); the ends of the text count as non-word. *)
Definition word_boundary (prev next : option ascii) : bool :=
  xorb (is_word_opt prev) (is_word_opt next).

Definition head (s : string) : option ascii :=
  match s with EmptyString => None | String c _ => Some c end.

(** [s[-1]] when [s] is not empty *)
Fixpoint last_char (s : string) : option ascii :=
  match s with
  | EmptyString => None
  | String c EmptyString => Some c
  | String _ s' => last_char s'
  end.

(** [re.sub(pattern, repl, text)] for a pattern that matches at most
    one, non-empty, string at a position.  [m prev s] is the match of
    the pattern at the position whose preceding character is [prev]
    and whose remaining text is [s]: the expanded replacement and the
    length of the match.  Matches are taken from left to right and do
    not overlap; look-behind sees the original text. *)
Fixpoint re_sub_go (m : option ascii → string → option (string * nat))
    (skip : nat) (prev : option ascii) (s : string) : string :=
  match s with
  | EmptyString => EmptyString
  | String c s' =>
      match skip with
      | S k => re_sub_go m k (Some c) s'
      | O =>
          match m prev s with
          | Some (repl, n) => repl +:+ re_sub_go m (n - 1) (Some c) s'
          | None => String c (re_sub_go m 0 (Some c) s')
          end
      end
  end.
Definition re_sub (m : option ascii → string → option (string * nat))
    (text : string) : string :=
  re_sub_go m 0 None text.

(** [content.decode("utf-8")], on the ASCII fragment. *)
Definition decode_utf8 (content : list byte) : result string :=
  let s := String.string_of_list_byte content in
  if forallb is_ascii (String.list_ascii_of_string s) then Ok s
  else Raise UnicodeDecodeError.

(** [text.encode("utf-8")] *)
Definition encode_utf8 (text : string) : list byte :=
  String.list_byte_of_string text.

(** ** pathlib (PurePosixPath) *)

(** The components of a path: empty and ["."] components are dropped. *)
Definition path_parts (p : string) : list string :=
  filter (λ x, x ≠ EmptyString ∧ x ≠ ".") (split "/" p).

(** [Path(p).name] *)
Definition path_name (p : string) : string :=
  List.last (path_parts p) EmptyString.

(** [Path(p).suffix]: the last dot-suffix of the name, if the dot is
    neither the first nor the last character. *)
Definition path_suffix (p : string) : string :=
  let name := path_name p in
  match rfind "." name with
  | Some i => if (0 <? i) && (i <? len name - 1) then slice_from i name
              else EmptyString
  | None => EmptyString
  end.

(** [Path(p).stem] *)
Definition path_stem (p : string) : string :=
  let name := path_name p in
  match rfind "." name with
  | Some i => if (0 <? i) && (i <? len name - 1) then slice_to i name
              else name
  | None => name
  end.

(** ** Further built-ins *)

(** [s.find(c)] for a one-character needle, counted from [i] *)
Fixpoint find_from (c : ascii) (i : nat) (s : string) : option nat :=
  match s with
  | EmptyString => None
  | String x s' => if Ascii.eqb x c then Some i else find_from c (S i) s'
  end.
Definition find (c : ascii) (s : string) : option nat := find_from c 0 s.

(** [s.split(sep, 1)] for a one-character separator *)
Definition split1 (sep : ascii) (s : string) : list string :=
  match find sep s with
  | Some i => [slice_to i s; slice_from (S i) s]
  | None => [s]
  end.

(** [s.lstrip()], [s.rstrip()] and [s.strip()] without argument: white
    space is removed from the ends. *)
Fixpoint lstrip_space (s : string) : string :=
  match s with
  | EmptyString => EmptyString
  | String c s' => if is_space c then lstrip_space s' else s
  end.
Fixpoint rstrip_space (s : string) : string :=
  match s with
  | EmptyString => EmptyString
  | String x s' =>
      match rstrip_space s' with
      | EmptyString => if is_space x then EmptyString else String x EmptyString
      | r => String x r
      end
  end.
Definition strip (s : string) : string := rstrip_space (lstrip_space s).

(** [s[:-n]] *)
Definition drop_last (n : nat) (s : string) : string := slice_to (len s - n) s.

(** [str(b)] for a boolean *)
Definition str_of_bool (b : bool) : string := if b then "True" else "False".

End Py.


(** The line feed, ["\n"], and the double quote. *)
Definition nl : string := String "010"%char EmptyString.
Definition dq : string := String "034"%char EmptyString.

(** ** zipfile: an archive read into memory *)

Module Zip.

Definition archive : Type := list (string * list byte).

(** [zf.namelist()] *)
Definition namelist (zf : archive) : list string := zf.*1.

(** [zf.read(name)]: when several members share a name, the last one
    is read. *)
Fixpoint read (zf : archive) (name : string) : option (list byte) :=
  match zf with
  | [] => None
  | (n, c) :: zf' =>
      match read zf' name with
      | Some c' => Some c'
      | None => if bool_decide (n = name) then Some c else None
      end
  end.

End Zip.

(** ** hashlib.sha256 (FIPS 180-4), on 32-bit words held in [Z] *)

Module Sha256.
Local Open Scope Z_scope.

Definition w32 (x : Z) : Z := x mod 4294967296.
Definition rotr (n x : Z) : Z :=
  Z.lor (Z.shiftr x n) (w32 (Z.shiftl x (32 - n))).
Definition shr (n x : Z) : Z := Z.shiftr x n.

Definition Ch (x y z : Z) : Z :=
  Z.lxor (Z.land x y) (Z.land (w32 (Z.lnot x)) z).
Definition Maj (x y z : Z) : Z :=
  Z.lxor (Z.lxor (Z.land x y) (Z.land x z)) (Z.land y z).
Definition Sigma0 (x : Z) : Z := Z.lxor (Z.lxor (rotr 2 x) (rotr 13 x)) (rotr 22 x).
Definition Sigma1 (x : Z) : Z := Z.lxor (Z.lxor (rotr 6 x) (rotr 11 x)) (rotr 25 x).
Definition sigma0 (x : Z) : Z := Z.lxor (Z.lxor (rotr 7 x) (rotr 18 x)) (shr 3 x).
Definition sigma1 (x : Z) : Z := Z.lxor (Z.lxor (rotr 17 x) (rotr 19 x)) (shr 10 x).

(** The primes below [n], by trial division. *)
Definition is_prime (p : Z) : bool :=
  (1 <? p) && forallb (λ d, negb (p mod d =? 0)) (Z.of_nat <$> seq 2 (Z.to_nat p - 2)).
Definition primes_below (n : nat) : list Z :=
  filter (λ p, is_prime p = true) (Z.of_nat <$> seq 0 n).

(** The integer cube root, one bit at a time from [2^k] down. *)
Fixpoint cube_root_from (k : nat) (r n : Z) : Z :=
  let r' := r + 2 ^ Z.of_nat k in
  let r := if r' * r' * r' <=? n then r' else r in
  match k with
  | O => r
  | S k' => cube_root_from k' r n
  end.

(** The round constants: the first 32 bits of the fractional parts of
    the cube roots of the first 64 primes. *)
Definition K : list Z :=
  Eval vm_compute in
    (λ p, w32 (cube_root_from 40 0 (p * 2 ^ 96))) <$> primes_below 312.

(** The initial hash value: the first 32 bits of the fractional parts
    of the square roots of the first 8 primes. *)
Definition H0 : list Z :=
  Eval vm_compute in (λ p, w32 (Z.sqrt (p * 2 ^ 64))) <$> primes_below 20.

(** Big-endian bytes of a word of [n] bytes. *)
Fixpoint be_bytes (n : nat) (x : Z) : list Z :=
  match n with
  | O => []
  | S n' => Z.shiftr x (8 * Z.of_nat n') mod 256 :: be_bytes n' x
  end.

(** The message followed by the bit 1, zeros, and its length in bits
    on 64 bits, to a multiple of 64 bytes. *)
Definition pad (msg : list Z) : list Z :=
  let l := Z.of_nat (length msg) in
  msg ++ [128] ++ repeat 0 (Z.to_nat ((55 - l) mod 64)) ++ be_bytes 8 (8 * l).

(** Big-endian 32-bit words of a byte sequence. *)
Fixpoint words (bs : list Z) : list Z :=
  match bs with
  | a :: b :: c :: d :: rest =>
      (((a * 256 + b) * 256 + c) * 256 + d) :: words rest
  | _ => []
  end.

(** The message schedule: [n] more words appended to [w]. *)
Fixpoint schedule (n : nat) (w : list Z) : list Z :=
  match n with
  | O => w
  | S n' =>
      let t := length w in
      let at_ (k : nat) := nth (t - k) w 0 in
      schedule n' (w ++ [w32 (sigma1 (at_ 2%nat) + at_ 7%nat + sigma0 (at_ 15%nat) + at_ 16%nat)])
  end.

Record regs : Type :=
  Regs { ra : Z; rb : Z; rc : Z; rd : Z; re : Z; rf : Z; rg : Z; rh : Z }.

Definition round (s : regs) (kw : Z * Z) : regs :=
  let t1 := w32 (rh s + Sigma1 (re s) + Ch (re s) (rf s) (rg s) + kw.1 + kw.2) in
  let t2 := w32 (Sigma0 (ra s) + Maj (ra s) (rb s) (rc s)) in
  Regs (w32 (t1 + t2)) (ra s) (rb s) (rc s) (w32 (rd s + t1)) (re s) (rf s) (rg s).

Definition compress (h : regs) (block : list Z) : regs :=
  let s := fold_left round (combine K (schedule 48 block)) h in
  Regs (w32 (ra h + ra s)) (w32 (rb h + rb s)) (w32 (rc h + rc s))
       (w32 (rd h + rd s)) (w32 (re h + re s)) (w32 (rf h + rf s))
       (w32 (rg h + rg s)) (w32 (rh h + rh s)).

(** The blocks of 16 words, in order; [n] bounds their number. *)
Fixpoint blocks (n : nat) (ws : list Z) : list (list Z) :=
  match n with
  | O => []
  | S n' =>
      match ws with
      | [] => []
      | _ => firstn 16 ws :: blocks n' (skipn 16 ws)
      end
  end.

Definition initial : regs :=
  let h (i : nat) := nth i H0 0 in
  Regs (h 0%nat) (h 1%nat) (h 2%nat) (h 3%nat) (h 4%nat) (h 5%nat) (h 6%nat) (h 7%nat).

Definition byte_of_Z (x : Z) : byte := byte_of_ascii (ascii_of_N (Z.to_N x)).
Definition Z_of_byte (b : byte) : Z := Z.of_N (Byte.to_N b).

(** [hashlib.sha256(data).digest()] *)
Definition digest (data : list byte) : list byte :=
  let ws := words (pad (Z_of_byte <$> data)) in
  let h := fold_left compress (blocks (length ws) ws) initial in
  byte_of_Z <$>
    (be_bytes 4 (ra h) ++ be_bytes 4 (rb h) ++ be_bytes 4 (rc h) ++
     be_bytes 4 (rd h) ++ be_bytes 4 (re h) ++ be_bytes 4 (rf h) ++
     be_bytes 4 (rg h) ++ be_bytes 4 (rh h)).

End Sha256.

(** ** base64.urlsafe_b64encode *)

Module Base64.

Definition alphabet : string :=
  "ABCDEFGHIJKLMNOPQRSTUVWXYZabcdefghijklmnopqrstuvwxyz0123456789-_".

Definition digit (i : N) : ascii :=
  match String.get (N.to_nat i) alphabet with
  | Some c => c
  | None => "="%char
  end.

Fixpoint encode (bs : list N) : string :=
  match bs with
  | [] => EmptyString
  | [a] =>
      String (digit (a / 4)) (String (digit (a mod 4 * 16)) "==")
  | [a; b] =>
      String (digit (a / 4)) (String (digit (a mod 4 * 16 + b / 16))
        (String (digit (b mod 16 * 4)) "="))
  | a :: b :: c :: rest =>
      String (digit (a / 4)) (String (digit (a mod 4 * 16 + b / 16))
        (String (digit (b mod 16 * 4 + c / 64)) (String (digit (c mod 64))
          (encode rest))))
  end%N.

Definition urlsafe_b64encode (data : list byte) : string :=
  encode (Byte.to_N <$> data).

End Base64.

(** ** src/spare_tire/rename.py *)

Module Rename.

Definition is_name_sep (c : ascii) : bool :=
  Ascii.eqb c "-" || Ascii.eqb c "_" || Ascii.eqb c ".".

(** [re.sub(r"[-_.]+", rep, name)]: every maximal run of separators
    becomes [rep]; [in_run] tells that the previous character belonged
    to the current run. *)
Fixpoint sub_sep_runs (rep : string) (in_run : bool) (name : string) : string :=
  match name with
  | EmptyString => EmptyString
  | String c name' =>
      if is_name_sep c then
        if in_run then sub_sep_runs rep true name'
        else rep +:+ sub_sep_runs rep true name'
      else String c (sub_sep_runs rep false name')
  end.

Definition _normalize_name (name : string) : string :=
  Py.lower (sub_sep_runs "_" false name).

Definition _compute_record_hash (data : list byte) : string :=
  let digest := Sha256.digest data in
  "sha256=" +:+ Py.rstrip "=" (Base64.urlsafe_b64encode digest).

(** The dictionary of components of a wheel filename. *)
Record components : Type := Components {
  distribution : string;
  version : string;
  build : string;
  python : string;
  abi : string;
  platform : string;
}.

Definition set_distribution (c : components) (d : string) : components :=
  Components d (version c) (build c) (python c) (abi c) (platform c).

Definition _parse_wheel_filename (filename : string) : result components :=
  let name := Py.path_stem filename in
  let parts := Py.split "-" name in
  if length parts <? 5 then Raise InvalidWheelFilename
  else
    let part (i : nat) := nth i parts EmptyString in
    has_build ←!
      (if 6 <=? length parts then
         match Py.head (part 2) with
         | Some c => Ok (Py.isdigit c)
         | None => Raise IndexError
         end
       else Ok false);
    if has_build : bool then
      Ok (Components (part 0) (part 1) (part 2) (part 3) (part 4) (part 5))
    else
      Ok (Components (part 0) (part 1) EmptyString (part 2) (part 3) (part 4)).

Definition _build_wheel_filename (c : components) : string :=
  let parts := [distribution c; version c] in
  let parts :=
    if bool_decide (build c ≠ EmptyString) then parts ++ [build c] else parts in
  let parts := parts ++ [python c; abi c; platform c] in
  Py.join "-" parts +:+ ".whl".

(** [_iter_wheel_files]: every name of the archive with what
    [zf.read] returns for it. *)
Definition _iter_wheel_files (zf : Zip.archive) : list (string * option (list byte)) :=
  (λ name, (name, Zip.read zf name)) <$> Zip.namelist zf.

Definition _update_metadata (content : list byte) (_old_name new_name : string)
    : result (list byte) :=
  text ←! Py.decode_utf8 content;
  let lines := Py.split "010" text in
  let new_lines :=
    (λ line, if Py.startswith line "Name:" then "Name: " +:+ new_name else line)
      <$> lines in
  Ok (Py.encode_utf8 (Py.join nl new_lines)).

(** The pattern [\bfrom {old}(\s|\.)] with the template
    [from {new}\1]. *)
Definition match_from (old_name new_name : string)
    (prev : option ascii) (s : string) : option (string * nat) :=
  let lit := "from " +:+ old_name in
  if Py.word_boundary prev (Py.head s) && Py.startswith s lit then
    match Py.head (Py.slice_from (Py.len lit) s) with
    | Some c =>
        if Py.is_space c || Ascii.eqb c "." then
          Some ("from " +:+ new_name +:+ String c EmptyString, S (Py.len lit))
        else None
    | None => None
    end
  else None.

(** The pattern [\bimport {old}\b] with the template [import {new}]. *)
Definition match_import (old_name new_name : string)
    (prev : option ascii) (s : string) : option (string * nat) :=
  let lit := "import " +:+ old_name in
  if Py.word_boundary prev (Py.head s) && Py.startswith s lit
     && Py.word_boundary (Py.last_char lit) (Py.head (Py.slice_from (Py.len lit) s))
  then Some ("import " +:+ new_name, Py.len lit)
  else None.

Definition _update_python_imports (content : list byte) (old_name new_name : string)
    : result (list byte) :=
  text ←! Py.decode_utf8 content;
  if Py.contains "\" new_name then Raise TemplateEscape
  else
    let text := Py.re_sub (match_from old_name new_name) text in
    let text := Py.re_sub (match_import old_name new_name) text in
    Ok (Py.encode_utf8 text).

(** *** The loop over the entries, shared by both entry points

    The two loops of [rename_wheel] and [rename_wheel_from_bytes] are
    the same text; they differ in the name handed to [_update_metadata]
    as its unused second argument. *)

(** The reserved prefixes: the path of [name] in the renamed wheel. *)
Definition new_file_name_of (old_name_normalized new_name_normalized
    old_dist_info new_dist_info old_data_dir new_data_dir name : string) : string :=
  if Py.startswith name (old_name_normalized +:+ "/")
     || bool_decide (name = old_name_normalized) then
    new_name_normalized +:+ Py.slice_from (Py.len old_name_normalized) name
  else if Py.startswith name (old_dist_info +:+ "/")
     || bool_decide (name = old_dist_info) then
    new_dist_info +:+ Py.slice_from (Py.len old_dist_info) name
  else if Py.startswith name (old_data_dir +:+ "/")
     || bool_decide (name = old_data_dir) then
    new_data_dir +:+ Py.slice_from (Py.len old_data_dir) name
  else name.

Definition new_content_of (update_imports : bool)
    (meta_old_name old_name_normalized new_name new_name_normalized
     new_dist_info new_file_name : string) (content : list byte)
    : result (list byte) :=
  if bool_decide (new_file_name = new_dist_info +:+ "/METADATA") then
    _update_metadata content meta_old_name new_name
  else if update_imports && Py.endswith new_file_name ".py" then
    _update_python_imports content old_name_normalized new_name_normalized
  else Ok content.

(** The names and versions a rename works with. *)
Record names : Type := Names {
  meta_old_name : string;        (* second argument of [_update_metadata] *)
  old_name_normalized : string;
  new_name : string;
  new_name_normalized : string;
  the_version : string;
}.

Definition old_dist_info (n : names) : string :=
  old_name_normalized n +:+ "-" +:+ the_version n +:+ ".dist-info".
Definition new_dist_info (n : names) : string :=
  new_name_normalized n +:+ "-" +:+ the_version n +:+ ".dist-info".
Definition old_data_dir (n : names) : string :=
  old_name_normalized n +:+ "-" +:+ the_version n +:+ ".data".
Definition new_data_dir (n : names) : string :=
  new_name_normalized n +:+ "-" +:+ the_version n +:+ ".data".

Definition new_file_name (n : names) (name : string) : string :=
  new_file_name_of (old_name_normalized n) (new_name_normalized n)
    (old_dist_info n) (new_dist_info n) (old_data_dir n) (new_data_dir n) name.

(** One turn of the loop on [files]. *)
Definition process_entry (update_imports : bool) (n : names)
    (files : gmap string (list byte)) (name : string) (content : list byte)
    : result (gmap string (list byte)) :=
  let new_file_name := new_file_name n name in
  new_content ←!
    new_content_of update_imports (meta_old_name n) (old_name_normalized n)
      (new_name n) (new_name_normalized n) (new_dist_info n) new_file_name content;
  if Py.endswith name "/RECORD" then Ok files
  else Ok (<[new_file_name := new_content]> files).

Fixpoint process_entries (update_imports : bool) (n : names)
    (entries : list (string * option (list byte)))
    (files : gmap string (list byte)) : result (gmap string (list byte)) :=
  match entries with
  | [] => Ok files
  | (name, read) :: entries' =>
      match read with
      | None => Raise KeyError
      | Some content =>
          files' ←! process_entry update_imports n files name content;
          process_entries update_imports n entries' files'
      end
  end.

(** *** The RECORD file *)

(** The order of [sorted(files.items())]: the keys of a dictionary are
    distinct, so the pairs are ordered by their keys. *)
Definition item_le (a b : string * list byte) : Prop := String.le a.1 b.1.
#[global] Instance item_le_dec : RelDecision item_le.
Proof. intros a b. unfold item_le. apply _. Defined.

Definition sorted_items (files : gmap string (list byte)) : list (string * list byte) :=
  merge_sort item_le (map_to_list files).

Definition record_line (item : string * list byte) : string :=
  let file_hash := _compute_record_hash item.2 in
  let file_size := length item.2 in
  item.1 +:+ "," +:+ file_hash +:+ "," +:+ Py.str_of_nat file_size.

Definition record_lines (record_path : string) (files : gmap string (list byte))
    : list string :=
  (record_line <$> sorted_items files) ++ [record_path +:+ ",,"].

Definition add_record (n : names) (files : gmap string (list byte))
    : gmap string (list byte) :=
  let record_path := new_dist_info n +:+ "/RECORD" in
  let record_content := Py.encode_utf8 (Py.join nl (record_lines record_path files)) in
  <[record_path := record_content]> files.

(** *** rename_wheel: the file-based entry point

    The file system is seen through [path_exists] ([Path.exists]) and
    [open_zip] (the archive [zipfile.ZipFile] reads at a path, if it
    can); what the function does to it is the list of its effects.
    [mkdir] and the writing of the archive are taken to succeed. *)

Inductive directory : Type :=
  | Dir (path : string)            (* the [output_dir] argument *)
  | ParentOf (path : string).      (* [wheel_path.parent] *)

Inductive fs_effect : Type :=
  | Mkdir (d : directory)
  | WriteZip (d : directory) (file_name : string) (entries : Zip.archive).

Definition rename_wheel
    (path_exists : string → bool) (open_zip : string → option Zip.archive)
    (wheel_path new_name : string) (output_dir : option string)
    (update_imports : bool)
    : list fs_effect * result (directory * string) :=
  if negb (path_exists wheel_path) then ([], Raise FileNotFoundError)
  else if negb (bool_decide (Py.path_suffix wheel_path = ".whl")) then
    ([], Raise NotAWheelFile)
  else
    match _parse_wheel_filename (Py.path_name wheel_path) with
    | Raise e => ([], Raise e)
    | Ok components =>
        let old_name := distribution components in
        let old_name_normalized := _normalize_name old_name in
        let new_name_normalized := _normalize_name new_name in
        if bool_decide (old_name_normalized = new_name_normalized) then
          ([], Raise SameNameError)
        else
          let output_dir :=
            match output_dir with
            | None => ParentOf wheel_path
            | Some d => Dir d
            end in
          let components := set_distribution components new_name_normalized in
          let new_wheel_name := _build_wheel_filename components in
          let n := Names old_name old_name_normalized new_name
                     new_name_normalized (version components) in
          match
            (match open_zip wheel_path with
             | None => Raise BadZipFile
             | Some zf => process_entries update_imports n (_iter_wheel_files zf) ∅
             end)
          with
          | Raise e => ([Mkdir output_dir], Raise e)
          | Ok files =>
              let files := add_record n files in
              ([Mkdir output_dir;
                WriteZip output_dir new_wheel_name (sorted_items files)],
               Ok (output_dir, new_wheel_name))
          end
    end.

(** *** rename_wheel_from_bytes: the in-memory entry point

    [unzip] is the reader of [zipfile.ZipFile] on a buffer.  The bytes
    returned are either the input buffer itself or those of a new
    archive, described by its entries in the order they are written. *)

Inductive out_bytes : Type :=
  | InputBuffer (wheel_bytes : list byte)
  | NewArchive (entries : Zip.archive).

(** The old name and the version, read from the first name of the
    archive that holds [".dist-info/"]. *)
Definition names_from_dist_info (zf : Zip.archive) : result (string * string) :=
  let dist_info_dirs :=
    filter (λ n, Py.contains ".dist-info/" n = true) (Zip.namelist zf) in
  match dist_info_dirs with
  | [] => Raise NoDistInfoError
  | first :: _ =>
      let dist_info_name := nth 0 (Py.split "/" first) EmptyString in
      (* the first pair of assignments indexes [rsplit("-", 1)[1]] *)
      match Py.rsplit1 "-" dist_info_name with
      | [_] => Raise IndexError
      | _ =>
          let parts := Py.rsplit1 "-" (Py.replace ".dist-info" "" dist_info_name) in
          let old_name_normalized := nth 0 parts EmptyString in
          let version :=
            if 1 <? length parts then nth 1 parts EmptyString else "0.0.0" in
          Ok (old_name_normalized, version)
      end
  end.

Definition rename_wheel_from_bytes
    (unzip : list byte → option Zip.archive)
    (wheel_bytes : list byte) (new_name : string) (update_imports : bool)
    : result out_bytes :=
  match unzip wheel_bytes with
  | None => Raise BadZipFile
  | Some zf =>
      found ←! names_from_dist_info zf;
      let old_name_normalized := found.1 in
      let version := found.2 in
      let new_name_normalized := _normalize_name new_name in
      if bool_decide (old_name_normalized = new_name_normalized) then
        Ok (InputBuffer wheel_bytes)
      else
        let n := Names old_name_normalized old_name_normalized new_name
                   new_name_normalized version in
        files ←! process_entries update_imports n (_iter_wheel_files zf) ∅;
        let files := add_record n files in
        Ok (NewArchive (sorted_items files))
  end.

(** One element of the list [extensions] of [inspect_wheel]. *)
Record extension : Type := Extension {
  ext_path : string;
  ext_module_name : string;
  ext_has_underscore_prefix : string;
}.

(** The dictionary returned by [inspect_wheel]. *)
Record wheel_info : Type := WheelInfo {
  info_filename : string;
  info_distribution : string;
  info_version : string;
  info_python_tag : string;
  info_abi_tag : string;
  info_platform_tag : string;
  info_files : list string;
  info_extensions : list extension;
  info_has_underscore_prefix_extension : bool;
}.

(** The state of the loop of [inspect_wheel]: [files_list],
    [extensions_list] and [info["has_underscore_prefix_extension"]]. *)
Definition inspect_state : Type := list string * list extension * bool.

Definition inspect_name (st : inspect_state) (name : string) : inspect_state :=
  let files_list := st.1.1 ++ [name] in
  if existsb (λ ext, Py.endswith name ext) [".so"; ".pyd"; ".dylib"] then
    let ext_name := nth 0 (Py.split "." (Py.path_stem name)) EmptyString in
    let has_underscore := Py.startswith ext_name "_" in
    (files_list,
     st.1.2 ++ [Extension name ext_name (Py.str_of_bool has_underscore)],
     if has_underscore then true else st.2)
  else (files_list, st.1.2, st.2).

Definition inspect_wheel
    (path_exists : string → bool)
    (open_zip : string → option Zip.archive)
    (wheel_path : string) : result wheel_info :=
  if negb (path_exists wheel_path) then Raise FileNotFoundError
  else
    components ←! _parse_wheel_filename (Py.path_name wheel_path);
    match open_zip wheel_path with
    | None => Raise BadZipFile
    | Some zf =>
        let st := fold_left inspect_name (Zip.namelist zf) ([], [], false) in
        Ok (WheelInfo (Py.path_name wheel_path)
              (distribution components) (version components)
              (python components) (abi components) (platform components)
              st.1.1 st.1.2 st.2)
    end.

End Rename.

(** ** src/spare_tire/server/config.py *)

Module Config.

Record RenameRule : Type := {
  original : string;
  new_name : string;
  version_spec : option string;
}.

(** [re.sub(r"[-_.]+", "-", name).lower()] *)
Definition _normalize_name (name : string) : string :=
  Py.lower (Rename.sub_sep_runs "-" false name).

Record ProxyConfig : Type := {
  host : string;
  port : Z;
  upstreams : list string;
  renames : list RenameRule;
}.

Definition get_rename_rule (self : ProxyConfig) (name : string) : option RenameRule :=
  let normalized := _normalize_name name in
  List.find (λ rule, bool_decide (_normalize_name (new_name rule) = normalized))
    (renames self).

(** An instance of the data class is true. *)
Definition get_original_for_renamed (self : ProxyConfig) (name : string)
    : option string :=
  match get_rename_rule self name with
  | Some rule => Some (original rule)
  | None => None
  end.

Definition is_renamed_package (self : ProxyConfig) (name : string) : bool :=
  match get_rename_rule self name with
  | Some _ => true
  | None => false
  end.

Definition get_virtual_packages (self : ProxyConfig) : list string :=
  new_name <$> renames self.

(** [parse_rename_arg]; [None] is the [ValueError] of an argument that
    is not of the format (or of an unpacking of a list that has not two
    elements). *)
Definition parse_rename_arg (arg : string) : option RenameRule :=
  if negb (Py.contains "=" arg) then None
  else
    match Py.split1 "=" arg with
    | [original; rest] =>
        match
          (if Py.contains ":" rest then
             match Py.split1 ":" rest with
             | [new_name; version_spec] => Some (new_name, Some version_spec)
             | _ => None
             end
           else Some (rest, None))
        with
        | Some (new_name, version_spec) =>
            Some (Build_RenameRule (Py.strip original) (Py.strip new_name)
                    (if match version_spec with Some v => bool_decide (v ≠ EmptyString) | None => false end
                     then Some (Py.strip (default EmptyString version_spec))
                     else None))
        | None => None
        end
    | _ => None
    end.

End Config.

(** ** src/spare_tire/server/stream.py *)

Module Stream.

(** [parts[0] = x] on the list of the parts *)
Definition set_first (parts : list string) (x : string) : list string :=
  match parts with
  | [] => []
  | _ :: rest => x :: rest
  end.

Definition fold_name (name : string) : string :=
  Py.replace "_" "-" (Py.lower name).

Definition rewrite_wheel_filename (filename original_name new_name : string) : string :=
  let parts := Py.split "-" filename in
  let parts :=
    if bool_decide (fold_name (nth 0 parts EmptyString) = fold_name original_name)
    then set_first parts new_name else parts in
  Py.join "-" parts.

Definition original_filename_from_renamed
    (renamed_filename original_name new_name : string) : string :=
  let parts := Py.split "-" renamed_filename in
  let parts :=
    if bool_decide (fold_name (nth 0 parts EmptyString) = fold_name new_name)
    then set_first parts original_name else parts in
  Py.join "-" parts.

Section download.
(** [client.download_wheel(url)] and the reading of a zip archive. *)
Variable download_wheel : string → result (list byte).
Variable unzip : list byte → option Zip.archive.

Definition rename_wheel_bytes (wheel_bytes : list byte) (new_name : string)
    : result Rename.out_bytes :=
  Rename.rename_wheel_from_bytes unzip wheel_bytes new_name true.

Definition stream_and_rename_wheel (upstream_url new_name : string)
    : result Rename.out_bytes :=
  wheel_bytes ←! download_wheel upstream_url;
  rename_wheel_bytes wheel_bytes new_name.

End download.

End Stream.

(** ** The package records of a listing *)

Module Listing.

(** The dictionary built by [get_project_page] for a wheel. *)
Record package : Type := Package {
  filename : string;
  url : string;
  requires_python : option string;
  hash : option string;
}.

(** Truth value of an optional string: [None] and [""] are false. *)
Definition truthy (o : option string) : bool :=
  match o with
  | Some s => bool_decide (s ≠ EmptyString)
  | None => false
  end.

End Listing.

(** ** src/spare_tire/server/html.py *)

Module Html.
Import Listing.

(** The file name shown for a package of the listing. *)
Definition listed_filename (rename_rule : option Config.RenameRule)
    (filename : string) : string :=
  match rename_rule with
  | Some rule =>
      Py.replace1 (Config.original rule +:+ "-") (Config.new_name rule +:+ "-") filename
  | None => filename
  end.

(** The anchor of one package. *)
Definition link (rename_rule : option Config.RenameRule) (pkg : package) : string :=
  let filename := listed_filename rename_rule (filename pkg) in
  let url := match rename_rule with Some _ => filename | None => url pkg end in
  let attrs := ["href=" +:+ dq +:+ url +:+ dq] in
  let attrs :=
    if truthy (requires_python pkg) then
      attrs ++ ["data-requires-python=" +:+ dq
                +:+ default EmptyString (requires_python pkg) +:+ dq]
    else attrs in
  let attrs :=
    if truthy (hash pkg) && negb (Py.contains "#" url) then
      Stream.set_first attrs
        ("href=" +:+ dq +:+ url +:+ "#" +:+ default EmptyString (hash pkg) +:+ dq)
    else attrs in
  "    <a " +:+ Py.join " " attrs +:+ ">" +:+ filename +:+ "</a>".

Definition generate_project_index (project : string) (packages : list package)
    (rename_rule : option Config.RenameRule) : string :=
  let links := link rename_rule <$> packages in
  let links_html := Py.join nl links in
  "<!DOCTYPE html>" +:+ nl +:+
  "<html>" +:+ nl +:+
  "<head>" +:+ nl +:+
  "    <meta name=" +:+ dq +:+ "pypi:repository-version" +:+ dq
    +:+ " content=" +:+ dq +:+ "1.0" +:+ dq +:+ ">" +:+ nl +:+
  "    <title>Links for " +:+ project +:+ "</title>" +:+ nl +:+
  "</head>" +:+ nl +:+
  "<body>" +:+ nl +:+
  "    <h1>Links for " +:+ project +:+ "</h1>" +:+ nl +:+
  links_html +:+ nl +:+
  "</body>" +:+ nl +:+
  "</html>" +:+ nl.

(** [sorted(set(projects))] *)
Definition sorted_set (projects : list string) : list string :=
  merge_sort String.le (remove_dups projects).

Definition root_link (project : string) : string :=
  "    <a href=" +:+ dq +:+ project +:+ "/" +:+ dq +:+ ">" +:+ project +:+ "</a>".

Definition generate_root_index (projects : list string) : string :=
  let links := Py.join nl (root_link <$> sorted_set projects) in
  "<!DOCTYPE html>" +:+ nl +:+
  "<html>" +:+ nl +:+
  "<head>" +:+ nl +:+
  "    <meta name=" +:+ dq +:+ "pypi:repository-version" +:+ dq
    +:+ " content=" +:+ dq +:+ "1.0" +:+ dq +:+ ">" +:+ nl +:+
  "    <title>Simple Index</title>" +:+ nl +:+
  "</head>" +:+ nl +:+
  "<body>" +:+ nl +:+
  links +:+ nl +:+
  "</body>" +:+ nl +:+
  "</html>" +:+ nl.

End Html.

(** ** src/spare_tire/server/upstream.py *)

Module Upstream.
Import Listing.

(** What [await self.client.get(url)] does: raise an [httpx.HTTPError]
    or return a response. *)
Inductive get_outcome : Type :=
  | RaisesHTTPError
  | Response (status_code : Z) (text : string).

(** [response.raise_for_status()] returns on a 2xx status and raises
    [httpx.HTTPStatusError], an [httpx.HTTPError], otherwise. *)
Definition is_success (status_code : Z) : bool :=
  (200 <=? status_code)%Z && (status_code <=? 299)%Z.

(** A package of a [pypi_simple.ProjectPage]. *)
Record page_package : Type := PagePackage {
  pp_filename : string;
  pp_url : string;
  pp_package_type : option string;
  pp_version : option string;
  pp_requires_python : option string;
  pp_digests : list (string * string);
}.

(** [pkg.digests[algo]] for the first [algo] of the list that is a key
    of [pkg.digests]. *)
Fixpoint first_digest (algos : list string) (digests : list (string * string))
    : option string :=
  match algos with
  | [] => None
  | algo :: algos' =>
      match list_find (λ kv, kv.1 = algo) digests with
      | Some (_, kv) => Some (algo +:+ "=" +:+ kv.2)
      | None => first_digest algos' digests
      end
  end.

Section client.
(** The network and the libraries the method calls. *)
Variable http_get : string → get_outcome.
Variable from_html : string → string → string → result (list page_package).
Variable specifier_set : Type.
(** [SpecifierSet(spec, prereleases=True)], which may raise *)
Variable parse_specifier_set : string → option specifier_set.
(** the truth value of a specifier set: it holds a specifier *)
Variable specifier_set_truthy : specifier_set → bool.
(** [Version(v) in spec]; [None] when it raises *)
Variable version_in : string → specifier_set → option bool.

(** The body of the loop over [page.packages]. *)
Definition keep_package (version_spec : option specifier_set) (pkg : page_package)
    : option package :=
  if bool_decide (pp_package_type pkg ≠ Some "wheel") then None
  else
    let excluded :=
      match version_spec, pp_version pkg with
      | Some spec, Some v =>
          if specifier_set_truthy spec && bool_decide (v ≠ EmptyString) then
            match version_in v spec with
            | Some b => negb b
            | None => true
            end
          else false
      | _, _ => false
      end in
    if excluded then None
    else
      Some (Package (pp_filename pkg) (pp_url pkg) (pp_requires_python pkg)
              (match pp_digests pkg with
               | [] => None
               | _ => first_digest ["sha256"; "sha384"; "sha512"; "md5"] (pp_digests pkg)
               end)).

(** What the method does with the text of a successful response. *)
Definition packages_of_page (project upstream_url text : string)
    (rename_rule : option Config.RenameRule) : result (list package) :=
  page ←! from_html project text upstream_url;
  version_spec ←!
    (match rename_rule with
     | Some rule =>
         if truthy (Config.version_spec rule) then
           match parse_specifier_set (default EmptyString (Config.version_spec rule)) with
           | Some spec => Ok (Some spec)
           | None => Raise InvalidSpecifier
           end
         else Ok None
     | None => Ok None
     end);
  Ok (omap (keep_package version_spec) page).

Definition project_url (upstream_url project : string) : string :=
  Py.rstrip "/" upstream_url +:+ "/" +:+ project +:+ "/".

(** [UpstreamClient.get_project_page]; [client_open] tells whether
    the HTTP client has been created ([self._client is not None]). *)
Fixpoint get_project_page (client_open : bool) (upstreams : list string)
    (project : string) (rename_rule : option Config.RenameRule)
    : result (list package) :=
  match upstreams with
  | [] => Ok []
  | upstream_url :: upstreams' =>
      let url := project_url upstream_url project in
      if negb client_open then Raise RuntimeError
      else
        match http_get url with
        | RaisesHTTPError =>
            get_project_page client_open upstreams' project rename_rule
        | Response status_code text =>
            if (status_code =? 404)%Z then
              get_project_page client_open upstreams' project rename_rule
            else if negb (is_success status_code) then
              get_project_page client_open upstreams' project rename_rule
            else packages_of_page project upstream_url text rename_rule
        end
  end.

End client.

Definition find_package_url (packages : list package) (original_filename : string)
    : option string :=
  match List.find (λ pkg, bool_decide (filename pkg = original_filename)) packages with
  | Some pkg => Some (url pkg)
  | None => None
  end.

End Upstream.

(** ** src/spare_tire/server/app.py *)

Module App.
Import Listing.

(** What a handler answers; an [HTTPException] of status 404, which the
    framework turns into a response, is the answer [NotFound]. *)
Inductive response : Type :=
  | HtmlPage (content : string)
  | Attachment (content : Rename.out_bytes) (filename : string)
  | Redirect (url : string) (status_code : Z)
  | NotFound (detail : string).

Section app.
Variable config : Config.ProxyConfig.
(** [upstream_client is not None]: the lifespan of the application has
    begun, and the HTTP client of the upstream client is open. *)
Variable started : bool.
Variable http_get : string → Upstream.get_outcome.
Variable from_html : string → string → string → result (list Upstream.page_package).
Variable specifier_set : Type.
Variable parse_specifier_set : string → option specifier_set.
Variable specifier_set_truthy : specifier_set → bool.
Variable version_in : string → specifier_set → option bool.
Variable download : string → result (list byte).
Variable unzip : list byte → option Zip.archive.

Definition get_project_page (project : string)
    (rename_rule : option Config.RenameRule) : result (list package) :=
  Upstream.get_project_page http_get from_html specifier_set
    parse_specifier_set specifier_set_truthy version_in true
    (Config.upstreams config) project rename_rule.

Definition simple_index : response :=
  let projects := remove_dups (Config.get_virtual_packages config) in
  HtmlPage (Html.generate_root_index (merge_sort String.le projects)).

Definition project_index (project : string) : result response :=
  if negb started then Raise RuntimeError
  else
    match Config.get_rename_rule config project with
    | Some rename_rule =>
        packages ←! get_project_page (Config.original rename_rule) (Some rename_rule);
        match packages with
        | [] => Ok (NotFound ("No packages found for " +:+ Config.original rename_rule))
        | _ => Ok (HtmlPage (Html.generate_project_index project packages
                               (Some rename_rule)))
        end
    | None =>
        packages ←! get_project_page project None;
        match packages with
        | [] => Ok (NotFound ("Project not found: " +:+ project))
        | _ => Ok (HtmlPage (Html.generate_project_index project packages None))
        end
    end.

Definition download_wheel (project filename : string) : result response :=
  if negb started then Raise RuntimeError
  else
    match Config.get_rename_rule config project with
    | Some rename_rule =>
        let original_filename :=
          Stream.original_filename_from_renamed filename
            (Config.original rename_rule) (Config.new_name rename_rule) in
        packages ←! get_project_page (Config.original rename_rule) (Some rename_rule);
        let upstream_url := Upstream.find_package_url packages original_filename in
        if negb (truthy upstream_url) then
          Ok (NotFound ("Package not found: " +:+ original_filename))
        else
          renamed_bytes ←!
            Stream.stream_and_rename_wheel download unzip
              (default EmptyString upstream_url) (Config.new_name rename_rule);
          Ok (Attachment renamed_bytes filename)
    | None =>
        packages ←! get_project_page project None;
        let upstream_url :=
          match List.find (λ pkg, bool_decide (Listing.filename pkg = filename)) packages with
          | Some pkg => Some (url pkg)
          | None => None
          end in
        if negb (truthy upstream_url) then
          Ok (NotFound ("Package not found: " +:+ filename))
        else Ok (Redirect (default EmptyString upstream_url) 302)
    end.

End app.

End App.

(** ** src/spare_tire/download.py *)

Module Download.

(** A tag of [packaging.tags]: the constructor lower-cases its three
    arguments. *)
Record Tag : Type := MkTag {
  interpreter : string;
  abi : string;
  platform : string;
}.
Definition tag (interpreter abi platform : string) : Tag :=
  MkTag (Py.lower interpreter) (Py.lower abi) (Py.lower platform).

Definition parse_wheel_tags (filename : string) : result (list Tag) :=
  let name := Py.drop_last 4 filename in
  let parts := Py.split "-" name in
  if length parts <? 5 then Ok []
  else
    let part (i : nat) := nth i parts EmptyString in
    has_build ←!
      (if 6 <=? length parts then
         match Py.head (part 2) with
         | Some c => Ok (Py.isdigit c)
         | None => Raise IndexError
         end
       else Ok false);
    let py_tag := if has_build : bool then part 3 else part 2 in
    let abi_tag := if has_build then part 4 else part 3 in
    let plat_tags := Py.split "." (if has_build then part 5 else part 4) in
    Ok ((λ plat, tag py_tag abi_tag plat) <$> plat_tags).

#[global] Instance Tag_eq_dec : EqDecision Tag.
Proof. solve_decision. Defined.
#[global] Instance Tag_countable : Countable Tag :=
  inj_countable' (λ t, (interpreter t, abi t, platform t))
    (λ p, MkTag p.1.1 p.1.2 p.2) (λ t, match t with MkTag _ _ _ => eq_refl end).

(** What [best_wheel] does: return, or raise the [IndexError] of
    [parse_wheel_tags] or the [InvalidVersion] of [packaging]. *)
Inductive outcome (A : Type) : Type :=
  | Returns (a : A)
  | RaisesIndexError
  | RaisesInvalidVersion.
Arguments Returns {A} a.
Arguments RaisesIndexError {A}.
Arguments RaisesInvalidVersion {A}.

(** [{tag: i for i, tag in enumerate(compatible_tags)}]: a later
    occurrence of a tag replaces the index of an earlier one. *)
Definition tag_priority (compatible_tags : list Tag) : gmap Tag nat :=
  fold_left (λ m it, <[it.2 := it.1]> m)
    (imap (λ i tag, (i, tag)) compatible_tags) ∅.

(** The loop over [wheel_tags]; [None] is [float("inf")]. *)
Definition best_priority (tag_priority : gmap Tag nat) (wheel_tags : list Tag)
    : option nat :=
  fold_left
    (λ best tag,
       match tag_priority !! tag with
       | Some i => Some (match best with Some b => Nat.min b i | None => i end)
       | None => best
       end)
    wheel_tags None.

(** An element of [compatible]: the package, the major, minor and
    micro numbers of its version, and its priority. *)
Definition candidate : Type := Upstream.page_package * (Z * Z * Z) * nat.

(** The key of the sort, and the order of Python on these tuples. *)
Definition sort_key (x : candidate) : Z * Z * Z * Z :=
  (- x.1.2.1.1, - x.1.2.1.2, - x.1.2.2, Z.of_nat x.2)%Z.
Definition key_lt (a b : Z * Z * Z * Z) : bool :=
  ((a.1.1.1 <? b.1.1.1)
   || ((a.1.1.1 =? b.1.1.1)
       && ((a.1.1.2 <? b.1.1.2)
           || ((a.1.1.2 =? b.1.1.2)
               && ((a.1.2 <? b.1.2)
                   || ((a.1.2 =? b.1.2) && (a.2 <? b.2)))))))%Z.

(** [compatible.sort(key=...)]: the sort is stable, an element comes
    before the elements of the same key that followed it. *)
Fixpoint insert_sorted (x : candidate) (l : list candidate) : list candidate :=
  match l with
  | [] => [x]
  | y :: l' =>
      if key_lt (sort_key y) (sort_key x) then y :: insert_sorted x l'
      else x :: l
  end.
Definition sort_by_key (l : list candidate) : list candidate :=
  foldr insert_sorted [] l.

Section best.
(** [list(sys_tags())], and [Version(v)] as the major, minor and micro
    numbers of the version, [None] when it raises [InvalidVersion]. *)
Variable sys_tags : list Tag.
Variable parse_version : string → option (Z * Z * Z).

(** The loop over [packages]. *)
Fixpoint collect (tag_priority : gmap Tag nat)
    (packages : list Upstream.page_package) (compatible : list candidate)
    : outcome (list candidate) :=
  match packages with
  | [] => Returns compatible
  | pkg :: packages' =>
      if bool_decide (Upstream.pp_package_type pkg ≠ Some "wheel") then
        collect tag_priority packages' compatible
      else
        match parse_wheel_tags (Upstream.pp_filename pkg) with
        | Raise _ => RaisesIndexError
        | Ok wheel_tags =>
            match best_priority tag_priority wheel_tags with
            | None => collect tag_priority packages' compatible
            | Some priority =>
                match
                  (if Listing.truthy (Upstream.pp_version pkg)
                   then parse_version (default EmptyString (Upstream.pp_version pkg))
                   else Some (0, 0, 0)%Z)
                with
                | None => RaisesInvalidVersion
                | Some version =>
                    collect tag_priority packages'
                      (compatible ++ [(pkg, version, priority)])
                end
            end
        end
  end.

Definition best_wheel (packages : list Upstream.page_package)
    (compatible_tags : option (list Tag))
    : outcome (option Upstream.page_package) :=
  let compatible_tags := default sys_tags compatible_tags in
  let tag_priority := tag_priority compatible_tags in
  match collect tag_priority packages [] with
  | Returns compatible =>
      match compatible with
      | [] => Returns None
      | _ =>
          (* [compatible[0][0]] after the sort *)
          match sort_by_key compatible with
          | first :: _ => Returns (Some first.1.1)
          | [] => RaisesIndexError
          end
      end
  | RaisesIndexError => RaisesIndexError
  | RaisesInvalidVersion => RaisesInvalidVersion
  end.

End best.

End Download.

(** * Part II: properties *)

(** ** Notions used in the statements *)

(** [c in s] for a character. *)
Fixpoint has_char (c : ascii) (s : string) : bool :=
  match s with
  | EmptyString => false
  | String x s' => Ascii.eqb x c || has_char c s'
  end.

(** The grammar of a wheel filename:
    [{distribution}-{version}(-{build})?-{python}-{abi}-{platform}.whl]. *)
Definition wheel_filename (d v b py abi plat : string) : string :=
  d +:+ "-" +:+ v +:+ (if bool_decide (b = "") then "" else "-" +:+ b)
    +:+ "-" +:+ py +:+ "-" +:+ abi +:+ "-" +:+ plat +:+ ".whl".

(** A component holds neither a dash nor a slash. *)
Definition component_ok (s : string) : bool :=
  negb (has_char "-" s) && negb (has_char "/" s).

(** A build tag is absent or starts with a digit. *)
Definition build_ok (b : string) : bool :=
  match b with
  | EmptyString => true
  | String c _ => Py.isdigit c
  end.

(** A rule of the proxy: the project [none] served as [none_v1]. *)
Definition none_rule : Config.RenameRule :=
  {| Config.original := "none"; Config.new_name := "none_v1";
     Config.version_spec := None |}.


(** The wheel of the scenario of the specification: one source entry,
    the metadata and the manifest. *)
Definition demo_wheel : Zip.archive :=
  [ ("demo/__init__.py",
      Py.encode_utf8 ("from demo import x" +:+ nl +:+ "import demo" +:+ nl
                      +:+ "NAME = " +:+ dq +:+ "demo" +:+ dq +:+ nl));
    ("demo-1.0.0.dist-info/METADATA",
      Py.encode_utf8 ("Metadata-Version: 2.1" +:+ nl +:+ "Name: demo" +:+ nl
                      +:+ "Version: 1.0.0" +:+ nl));
    ("demo-1.0.0.dist-info/RECORD", []) ].

(** A buffer standing for the bytes of [demo_wheel], and a reader that
    knows it. *)
Definition demo_bytes : list byte := Py.encode_utf8 "PK-demo".
Definition demo_unzip (b : list byte) : option Zip.archive :=
  if bool_decide (b = demo_bytes) then Some demo_wheel else None.

(** A wheel without any metadata directory. *)
Definition bare_wheel : Zip.archive :=
  [ ("demo/__init__.py", Py.encode_utf8 ("x = 1" +:+ nl)) ].

(** The listing request to an upstream is answered by a page: the
    status is a success (and so is not 404). *)
Definition upstream_answer (http_get : string → Upstream.get_outcome)
    (project upstream_url : string) : option string :=
  match http_get (Upstream.project_url upstream_url project) with
  | Upstream.Response status_code text =>
      if Upstream.is_success status_code then Some text else None
  | Upstream.RaisesHTTPError => None
  end.

(** Two upstreams: the page of the first lists nothing, the page of the
    second lists one wheel. *)
Definition two_upstreams_get (url : string) : Upstream.get_outcome :=
  Upstream.Response 200 url.
Definition two_upstreams_html (project text upstream_url : string)
    : result (list Upstream.page_package) :=
  if bool_decide (upstream_url = "https://first.example/simple") then Ok []
  else Ok [ Upstream.PagePackage "demo-1.0.0-py3-none-any.whl"
              "https://second.example/demo-1.0.0-py3-none-any.whl"
              (Some "wheel") (Some "1.0.0") None [] ].






(** What follows a reserved prefix in a path: nothing, or a path below
    it. *)
Definition is_below (rest : string) : bool :=
  match rest with
  | EmptyString => true
  | String c _ => Ascii.eqb c "/"
  end.

(** The path begins with an old prefix: the package root ([{old}/], or
    the path [{old}] itself), the metadata directory
    [{old}-{version}.dist-info/] or the data directory
    [{old}-{version}.data/]. *)
Definition has_old_prefix (n : Rename.names) (path : string) : bool :=
  Py.startswith path (Rename.old_name_normalized n +:+ "/")
  || bool_decide (path = Rename.old_name_normalized n)
  || Py.startswith path (Rename.old_dist_info n +:+ "/")
  || Py.startswith path (Rename.old_data_dir n +:+ "/").




(** The entries of the archive a rename has written, if it wrote one. *)
Definition written_entries {A} (r : list Rename.fs_effect * A) : Zip.archive :=
  match r.1 with
  | [_; Rename.WriteZip _ _ entries] => entries
  | _ => []
  end.



(** The file-based and the in-memory rename of the demo wheel to
    [demo_v1], and the entries the latter writes. *)
Definition demo_rename : list Rename.fs_effect * result (Rename.directory * string) :=
  Rename.rename_wheel (λ _, true) (λ _, Some demo_wheel)
    "dist/demo-1.0.0-py3-none-any.whl" "demo_v1" None true.

(** A line of the manifest: [path,digest,size], the digest being
    [sha256=] followed by the URL-safe base64 encoding, without padding,
    of the SHA-256 of the bytes, and the size their number. *)
Definition manifest_line (path : string) (content : list byte) : string :=
  path +:+ "," +:+
  ("sha256=" +:+ Py.rstrip "=" (Base64.urlsafe_b64encode (Sha256.digest content)))
  +:+ "," +:+ Py.str_of_nat (length content).


(** ** Notions used in the further properties *)

(** Every separator of the text is [r], and no two separators are
    adjacent; [prev_sep] tells that the character before the text is a
    separator. *)
Fixpoint single_seps (r : ascii) (prev_sep : bool) (s : string) : bool :=
  match s with
  | EmptyString => true
  | String c s' =>
      if Rename.is_name_sep c then
        negb prev_sep && Ascii.eqb c r && single_seps r true s'
      else single_seps r false s'
  end.

(** No character of the text is an upper-case ASCII letter. *)
Fixpoint no_upper (s : string) : bool :=
  match s with
  | EmptyString => true
  | String c s' => negb (Py.is_upper c) && no_upper s'
  end.


(** The characters of the URL-safe base 64 alphabet. *)
Definition urlsafe_char (c : ascii) : bool :=
  Py.is_upper c || Py.is_lower c || Py.isdigit c
  || Ascii.eqb c "-" || Ascii.eqb c "_".

Fixpoint all_chars (p : ascii → bool) (s : string) : bool :=
  match s with
  | EmptyString => true
  | String c s' => p c && all_chars p s'
  end.

(** The text with every separator of a name replaced by [r]. *)
Fixpoint with_sep (r : ascii) (s : string) : string :=
  match s with
  | EmptyString => EmptyString
  | String c s' => String (if Rename.is_name_sep c then r else c) (with_sep r s')
  end.

(** The names that [inspect_wheel] takes for compiled extensions. *)
Definition is_extension (name : string) : bool :=
  Py.endswith name ".so" || Py.endswith name ".pyd" || Py.endswith name ".dylib".

(** What the loop of [inspect_wheel] keeps true of its state. *)
Definition inspect_inv (st : Rename.inspect_state) : Prop :=
  Forall (λ e, Rename.ext_module_name e
               = nth 0 (Py.split "." (Py.path_stem (Rename.ext_path e))) ""
               ∧ Rename.ext_has_underscore_prefix e
                 = Py.str_of_bool (Py.startswith (Rename.ext_module_name e) "_"))
    st.1.2
  ∧ (st.2 = true
     ↔ ∃ e, e ∈ st.1.2 ∧ Py.startswith (Rename.ext_module_name e) "_" = true).




(** A proxy that serves the project [demo] as [demo_v1] from one
    upstream, and the wheel that this upstream lists. *)
Definition demo_rule : Config.RenameRule :=
  {| Config.original := "demo"; Config.new_name := "demo_v1";
     Config.version_spec := Some "<2" |}.
Definition demo_config : Config.ProxyConfig :=
  {| Config.host := "127.0.0.1"; Config.port := 8000;
     Config.upstreams := ["https://second.example/simple/"];
     Config.renames := [demo_rule] |}.
Definition demo_package : Listing.package :=
  Listing.Package "demo-1.0.0-py3-none-any.whl"
    "https://second.example/demo-1.0.0-py3-none-any.whl" None None.

(** A wheel with a compiled extension. *)
Definition ext_wheel : Zip.archive :=
  [ ("demo/__init__.py", []);
    ("demo/_core.cpython-311-x86_64-linux-gnu.so", []);
    ("demo-1.0.0.dist-info/METADATA", Py.encode_utf8 "Name: demo") ].
Definition ext_report : Rename.wheel_info :=
  match Rename.inspect_wheel (λ _, true) (λ _, Some ext_wheel)
          "dist/demo-1.0.0-cp311-cp311-linux_x86_64.whl" with
  | Ok info => info
  | Raise _ => Rename.WheelInfo "" "" "" "" "" "" [] [] false
  end.

(** The names of the rename that takes the result of a rename back to
    the old normalized name. *)
Definition reverse_names (n : Rename.names) : Rename.names :=
  Rename.Names (Rename.new_name_normalized n) (Rename.new_name_normalized n)
    (Rename.old_name_normalized n) (Rename.old_name_normalized n)
    (Rename.the_version n).

(** The version numbers and the priority that [best_wheel] gives a
    package: the priority is the least index, in the dictionary of the
    compatible tags, of a tag of its filename. *)
Definition wheel_version (parse_version : string → option (Z * Z * Z))
    (pkg : Upstream.page_package) : option (Z * Z * Z) :=
  if Listing.truthy (Upstream.pp_version pkg)
  then parse_version (default EmptyString (Upstream.pp_version pkg))
  else Some (0, 0, 0)%Z.
Definition wheel_priority (compatible_tags : list Download.Tag)
    (pkg : Upstream.page_package) : option nat :=
  match Download.parse_wheel_tags (Upstream.pp_filename pkg) with
  | Ok wheel_tags =>
      Download.best_priority (Download.tag_priority compatible_tags) wheel_tags
  | Raise _ => None
  end.

(** A wheel of version [v] and priority [p] is at least as good as one
    of version [v'] and priority [p']: its version numbers are greater
    in the lexicographic order, or they are equal and its priority is
    not greater. *)
Definition at_least_as_good (v : Z * Z * Z) (p : nat) (v' : Z * Z * Z) (p' : nat)
    : Prop :=
  (v.1.1 > v'.1.1
   ∨ (v.1.1 = v'.1.1
      ∧ (v.1.2 > v'.1.2
         ∨ (v.1.2 = v'.1.2
            ∧ (v.2 > v'.2 ∨ (v.2 = v'.2 ∧ (p ≤ p')%nat))))))%Z.

(** A list of wheels for [best_wheel]: two versions of a pure-Python
    wheel and a source archive. *)
Definition demo_candidates : list Upstream.page_package :=
  [ Upstream.PagePackage "demo-1.0.0-py3-none-any.whl" "u1" (Some "wheel")
      (Some "1.0.0") None [];
    Upstream.PagePackage "demo-1.2.0-py3-none-any.whl" "u2" (Some "wheel")
      (Some "1.2.0") None [];
    Upstream.PagePackage "demo-2.0.0.tar.gz" "u3" (Some "sdist")
      (Some "2.0.0") None [] ].
Definition demo_version (v : string) : option (Z * Z * Z) :=
  if bool_decide (v = "1.0.0") then Some (1, 0, 0)%Z
  else if bool_decide (v = "1.2.0") then Some (1, 2, 0)%Z
  else None.
Definition demo_tags : list Download.Tag :=
  [ Download.tag "cp311" "cp311" "linux_x86_64"; Download.tag "py3" "none" "any" ].

(** [k] slashes. *)
Fixpoint slashes (k : nat) : string :=
  match k with
  | O => EmptyString
  | S k' => String "/" (slashes k')
  end.

(** ** Facts about strings *)

Lemma str_app_cons (x : ascii) (a b : string) : String x a +:+ b = String x (a +:+ b).
Proof. done. Qed.

Lemma str_app_nil_l (s : string) : "" +:+ s = s.
Proof. done. Qed.

Lemma str_app_nil_r (s : string) : s +:+ "" = s.
Proof. induction s as [|c s IH]; [done|]. by rewrite str_app_cons, IH. Qed.

Lemma str_app_assoc (a b c : string) : (a +:+ b) +:+ c = a +:+ (b +:+ c).
Proof. induction a as [|x a IH]; [done|]. by rewrite !str_app_cons, IH. Qed.

Lemma str_len_app (a b : string) : Py.len (a +:+ b) = Py.len a + Py.len b.
Proof.
  induction a as [|x a IH]; [done|].
  rewrite str_app_cons. cbn. by rewrite IH.
Qed.

Lemma has_char_app c a b : has_char c (a +:+ b) = has_char c a || has_char c b.
Proof.
  induction a as [|x a IH]; [done|].
  rewrite str_app_cons. cbn. rewrite IH. by rewrite orb_assoc.
Qed.

Lemma prefix_app (p t : string) : String.prefix p (p +:+ t) = true.
Proof.
  induction p as [|x p IH]; [by destruct t|].
  rewrite str_app_cons. cbn. destruct (ascii_dec x x); [done|congruence].
Qed.

Lemma prefix_inv (p s : string) :
  String.prefix p s = true → ∃ t, s = p +:+ t.
Proof.
  revert s. induction p as [|x p IH]; intros s H.
  - by exists s.
  - destruct s as [|y s]; [done|]. cbn in H.
    destruct (ascii_dec x y) as [->|]; [|done].
    destruct (IH _ H) as [t ->]. by exists t.
Qed.

Lemma startswith_spec (s p : string) :
  Py.startswith s p = true ↔ ∃ t, s = p +:+ t.
Proof.
  split; [apply prefix_inv|]. intros [t ->]. apply prefix_app.
Qed.

Lemma slice_from_app (p t : string) : Py.slice_from (Py.len p) (p +:+ t) = t.
Proof. induction p as [|x p IH]; [by destruct t|done]. Qed.

Lemma slice_to_app (p t : string) : Py.slice_to (Py.len p) (p +:+ t) = p.
Proof.
  induction p as [|x p IH]; [by destruct t|].
  rewrite str_app_cons. cbn. by rewrite IH.
Qed.

Lemma slice_from_all (s : string) : Py.slice_from (Py.len s) s = "".
Proof. rewrite <-(str_app_nil_r s) at 2. apply slice_from_app. Qed.




Lemma split_no_sep (sep : ascii) (s : string) :
  has_char sep s = false → Py.split sep s = [s].
Proof.
  induction s as [|x s IH]; [done|]. cbn.
  intros [Hx Hs]%orb_false_iff. rewrite Hx, (IH Hs). done.
Qed.

Lemma split_app_sep (sep : ascii) (a rest : string) :
  has_char sep a = false →
  Py.split sep (a +:+ String sep rest) = a :: Py.split sep rest.
Proof.
  induction a as [|x a IH]; intros H.
  - rewrite str_app_nil_l. cbn. by rewrite Ascii.eqb_refl.
  - cbn in H. apply orb_false_iff in H as [Hx Ha].
    rewrite str_app_cons. cbn. rewrite Hx, (IH Ha). done.
Qed.

Lemma rfind_from_app (c : ascii) (i : nat) (a b : string) :
  has_char c b = false →
  Py.rfind_from c i (a +:+ String c b) = Some (i + Py.len a).
Proof.
  intros Hb. revert i. induction a as [|x a IH]; intros i.
  - rewrite str_app_nil_l. cbn. assert (Py.rfind_from c (S i) b = None) as ->.
    { clear -Hb. revert i. induction b as [|y b IH]; intros i; [done|].
      cbn in *. apply orb_false_iff in Hb as [Hy Hb]. by rewrite (IH Hb), Hy. }
    rewrite Ascii.eqb_refl. f_equal. lia.
  - rewrite str_app_cons. cbn. rewrite IH. f_equal. lia.
Qed.

(** ** Filename grammar: parse and build *)


Lemma path_name_plain (f : string) :
  has_char "/" f = false → f ≠ "" → f ≠ "." → Py.path_name f = f.
Proof.
  intros Hs H1 H2. unfold Py.path_name, Py.path_parts.
  rewrite (split_no_sep _ _ Hs). cbn.
  rewrite decide_True by done. done.
Qed.

Lemma path_stem_whl (body : string) :
  has_char "/" body = false → body ≠ "" →
  Py.path_stem (body +:+ ".whl") = body.
Proof.
  intros Hs Hne. unfold Py.path_stem.
  rewrite path_name_plain.
  - unfold Py.rfind. change ".whl" with (String "." "whl").
    rewrite rfind_from_app by done. cbn [Nat.add].
    rewrite str_len_app. change (Py.len (String "." "whl")) with 4.
    assert (0 < Py.len body) by (destruct body; [done|cbn; lia]).
    rewrite (proj2 (Nat.ltb_lt _ _)) by done.
    rewrite (proj2 (Nat.ltb_lt _ _)) by lia.
    cbn [andb]. apply slice_to_app.
  - rewrite has_char_app, Hs. done.
  - destruct body; [done|]. done.
  - destruct body as [|x [|y body]]; [done|done|done].
Qed.

Lemma str_app_cons_ne (a b : string) (c : ascii) : a +:+ String c b ≠ "".
Proof. by destruct a. Qed.

Lemma component_ok_inv (s : string) :
  component_ok s = true → has_char "-" s = false ∧ has_char "/" s = false.
Proof.
  unfold component_ok. intros [H1 H2]%andb_true_iff.
  by apply negb_true_iff in H1, H2.
Qed.

(** Fewer than five dash-separated segments: the filename is refused. *)
Lemma parse_too_few_segments (filename : string) :
  length (Py.split "-" (Py.path_stem filename)) < 5 →
  Rename._parse_wheel_filename filename = Raise InvalidWheelFilename.
Proof.
  intros H. unfold Rename._parse_wheel_filename.
  by rewrite (proj2 (Nat.ltb_lt _ _) H).
Qed.

(** A six-segment name whose third segment starts with a digit has that
    segment as its build tag. *)
Lemma parse_six_segments (filename d v b py abi plat : string) :
  Py.split "-" (Py.path_stem filename) = [d; v; b; py; abi; plat] →
  build_ok b = true → b ≠ "" →
  Rename._parse_wheel_filename filename = Ok (Rename.Components d v b py abi plat).
Proof.
  intros Hs Hb Hne. unfold Rename._parse_wheel_filename. rewrite Hs. cbn.
  destruct b as [|c b]; [done|]. cbn in *. by rewrite Hb.
Qed.

(** Claim C7.  For every well-formed wheel filename
    [f = distribution-version(-build)?-python-abi-platform.whl], whose
    components hold no dash (and no path separator), the platform being
    free to be a dot-joined compound, and whose build tag, when there is
    one, starts with a digit, [_parse_wheel_filename f] succeeds and
    [_build_wheel_filename] gives [f] back from its result. *)
Theorem parse_build_roundtrip (d v b py abi plat : string) :
  component_ok d = true → component_ok v = true → component_ok b = true →
  component_ok py = true → component_ok abi = true → component_ok plat = true →
  build_ok b = true →
  ∃ c, Rename._parse_wheel_filename (wheel_filename d v b py abi plat) = Ok c
       ∧ c = Rename.Components d v b py abi plat
       ∧ Rename._build_wheel_filename c = wheel_filename d v b py abi plat.
Proof.
  intros [Hd Hd']%component_ok_inv [Hv Hv']%component_ok_inv
    [Hb Hb']%component_ok_inv [Hp Hp']%component_ok_inv
    [Ha Ha']%component_ok_inv [Hl Hl']%component_ok_inv Hbuild.
  eexists; split; [|split; [reflexivity|]].
  - unfold wheel_filename, Rename._parse_wheel_filename.
    set (bp := if bool_decide (b = "") then "" else "-" +:+ b).
    assert (has_char "/" bp = false) as Hbp.
    { unfold bp. case_bool_decide; [done|]. by rewrite has_char_app, Hb'. }
    rewrite <-!str_app_assoc. rewrite path_stem_whl; cycle 1.
    { rewrite !has_char_app, Hd', Hv', Hbp, Hp', Ha', Hl'. done. }
    { rewrite !str_app_assoc. apply str_app_cons_ne. }
    rewrite !str_app_assoc. unfold bp. case_bool_decide as Hbe.
    + subst b. rewrite !str_app_cons, !str_app_nil_l.
      rewrite (split_app_sep _ d) by done.
      rewrite (split_app_sep _ v), (split_app_sep _ py), (split_app_sep _ abi),
        (split_no_sep _ plat) by done.
      done.
    + rewrite !str_app_assoc, !str_app_cons, !str_app_nil_l.
      rewrite (split_app_sep _ d) by done.
      rewrite (split_app_sep _ v), (split_app_sep _ b), (split_app_sep _ py),
        (split_app_sep _ abi), (split_no_sep _ plat) by done.
      destruct b as [|x b]; [done|]. cbn in Hbuild. cbn. by rewrite Hbuild.
  - unfold Rename._build_wheel_filename, wheel_filename. cbn.
    case_bool_decide as Hbe; case_bool_decide as Hbe'; try done; cbn.
    + by rewrite !str_app_assoc.
    + by rewrite !str_app_assoc.
Qed.

Lemma parse_build_roundtrip_witness :
  ∃ c, Rename._parse_wheel_filename
         "numpy-1.24.0-1-cp311-cp311-manylinux_2_17_x86_64.manylinux2014_x86_64.whl" = Ok c
       ∧ c = Rename.Components "numpy" "1.24.0" "1" "cp311" "cp311"
               "manylinux_2_17_x86_64.manylinux2014_x86_64"
       ∧ Rename._build_wheel_filename c
         = "numpy-1.24.0-1-cp311-cp311-manylinux_2_17_x86_64.manylinux2014_x86_64.whl".
Proof.
  apply (parse_build_roundtrip "numpy" "1.24.0" "1" "cp311" "cp311"
           "manylinux_2_17_x86_64.manylinux2014_x86_64"); reflexivity.
Defined.

(** ** split and join *)

Lemma split_not_nil (sep : ascii) (s : string) : Py.split sep s ≠ [].
Proof.
  induction s as [|x s IH]; [done|]. cbn.
  destruct (Ascii.eqb x sep); [done|]. by destruct (Py.split sep s).
Qed.

Lemma split_parts_no_sep (sep : ascii) (s : string) :
  Forall (λ p, has_char sep p = false) (Py.split sep s).
Proof.
  induction s as [|x s IH]; [by repeat constructor|]. cbn.
  destruct (Ascii.eqb x sep) eqn:Hx; [by constructor|].
  destruct (Py.split sep s) as [|h t].
  { constructor; [cbn; by rewrite Hx|constructor]. }
  inversion_clear IH. constructor; [|done]. cbn. by rewrite Hx.
Qed.

Lemma join_cons2 (sep x y : string) (l : list string) :
  Py.join sep (x :: y :: l) = x +:+ sep +:+ Py.join sep (y :: l).
Proof. done. Qed.

Lemma join_split (sep : ascii) (s : string) :
  Py.join (String sep "") (Py.split sep s) = s.
Proof.
  induction s as [|x s IH]; [done|]. cbn.
  destruct (Ascii.eqb_spec x sep) as [->|Hne].
  - pose proof (split_not_nil sep s) as Hnn.
    destruct (Py.split sep s) as [|h t] eqn:E; [done|].
    rewrite join_cons2, IH. done.
  - destruct (Py.split sep s) as [|h t] eqn:E.
    + by destruct (split_not_nil sep s).
    + destruct t as [|h' t].
      * cbn in *. by rewrite IH.
      * rewrite join_cons2 in *. rewrite str_app_cons. by rewrite IH.
Qed.

Lemma split_join (sep : ascii) (l : list string) :
  l ≠ [] → Forall (λ p, has_char sep p = false) l →
  Py.split sep (Py.join (String sep "") l) = l.
Proof.
  induction l as [|x l IH]; [done|]. intros _ Hall.
  inversion_clear Hall as [|?? Hx Hl].
  destruct l as [|y l].
  - cbn. by apply split_no_sep.
  - rewrite join_cons2, str_app_cons, str_app_nil_l.
    rewrite split_app_sep by done. by rewrite IH.
Qed.

(** ** The listing of a virtual package (html.py) and its sibling (stream.py) *)

(** [rewrite_wheel_filename] only ever touches the first dash-separated
    segment: when the new name holds no dash, the other segments of the
    result are those of the file name. *)
Lemma rewrite_wheel_filename_tail (filename original_name new_name : string) :
  has_char "-" new_name = false →
  tail (Py.split "-" (Stream.rewrite_wheel_filename filename original_name new_name))
  = tail (Py.split "-" filename).
Proof.
  intros Hn. unfold Stream.rewrite_wheel_filename.
  case_bool_decide; [|by rewrite join_split].
  pose proof (split_parts_no_sep "-" filename) as Hall.
  pose proof (split_not_nil "-" filename) as Hnn.
  destruct (Py.split "-" filename) as [|h t]; [done|].
  cbn [Stream.set_first]. rewrite split_join; [done|done|].
  inversion_clear Hall. by constructor.
Qed.

(** A file name whose first segment is not the original name (up to
    case and underscores) is left as it is by [rewrite_wheel_filename]. *)
Lemma rewrite_wheel_filename_other (filename original_name new_name : string) :
  Stream.fold_name (nth 0 (Py.split "-" filename) "") ≠ Stream.fold_name original_name →
  Stream.rewrite_wheel_filename filename original_name new_name = filename.
Proof.
  intros H. unfold Stream.rewrite_wheel_filename.
  rewrite bool_decide_eq_false_2 by done. apply join_split.
Qed.

(** Claim C3 (the code departs from it).  [generate_project_index]
    rewrites the file name with [str.replace(original-, new-, 1)]:
    on the record [None-1.0-py3-none-any.whl] of the project [none] it
    leaves the distribution segment alone and rewrites the ABI tag,
    where [rewrite_wheel_filename] replaces the distribution segment
    only. *)
Theorem listing_rewrite_hits_inner_segment :
  Html.listed_filename (Some none_rule) "None-1.0-py3-none-any.whl"
    = "None-1.0-py3-none_v1-any.whl"
  ∧ Html.link (Some none_rule)
      (Listing.Package "None-1.0-py3-none-any.whl" "https://files.example/x.whl" None None)
    = "    <a href=" +:+ dq +:+ "None-1.0-py3-none_v1-any.whl" +:+ dq
        +:+ ">None-1.0-py3-none_v1-any.whl</a>"
  ∧ Stream.rewrite_wheel_filename "None-1.0-py3-none-any.whl" "none" "none_v1"
    = "none_v1-1.0-py3-none-any.whl".
Proof. repeat split; reflexivity. Qed.

(** ** The metadata entry *)

Lemma decode_encode (text : string) :
  String.string_of_list_byte (Py.encode_utf8 text) = text.
Proof. apply String.string_of_list_byte_of_string. Qed.




(** ** The exceptions a rename can raise *)

(** [H : e ∈ [e1; ...; en]] where [e] is none of them. *)
Ltac not_listed H :=
  repeat (apply elem_of_cons in H as [H|H]; [discriminate H|]);
  by apply elem_of_nil in H.

Lemma decode_raises (content : list byte) (e : exn) :
  Py.decode_utf8 content = Raise e → e = UnicodeDecodeError.
Proof. unfold Py.decode_utf8. case_match; naive_solver. Qed.

Lemma update_metadata_raises (content : list byte) (o n : string) (e : exn) :
  Rename._update_metadata content o n = Raise e → e = UnicodeDecodeError.
Proof.
  unfold Rename._update_metadata.
  destruct (Py.decode_utf8 content) eqn:E; [done|]. cbn. intros [= <-].
  by eapply decode_raises.
Qed.

Lemma update_python_imports_raises (content : list byte) (o n : string) (e : exn) :
  Rename._update_python_imports content o n = Raise e →
  e = UnicodeDecodeError ∨ e = TemplateEscape.
Proof.
  unfold Rename._update_python_imports.
  destruct (Py.decode_utf8 content) eqn:E; cbn.
  - case_match; naive_solver.
  - intros [= <-]. left. by eapply decode_raises.
Qed.

Lemma new_content_of_raises ui a b c d e' f content (e : exn) :
  Rename.new_content_of ui a b c d e' f content = Raise e →
  e = UnicodeDecodeError ∨ e = TemplateEscape.
Proof.
  unfold Rename.new_content_of.
  repeat case_match; [|apply update_python_imports_raises|done].
  intros Hm%update_metadata_raises. by left.
Qed.

Lemma process_entry_raises ui n files name content (e : exn) :
  Rename.process_entry ui n files name content = Raise e →
  e = UnicodeDecodeError ∨ e = TemplateEscape.
Proof.
  unfold Rename.process_entry.
  destruct (Rename.new_content_of _ _ _ _ _ _ _ _) eqn:E; cbn.
  - by case_match.
  - intros [= <-]. by eapply new_content_of_raises.
Qed.

Lemma process_entries_raises ui n entries files (e : exn) :
  Rename.process_entries ui n entries files = Raise e →
  e = KeyError ∨ e = UnicodeDecodeError ∨ e = TemplateEscape.
Proof.
  revert files. induction entries as [|[name [content|]] entries IH]; intros files;
    cbn; [done| |naive_solver].
  destruct (Rename.process_entry ui n files name content) eqn:E; cbn.
  - apply IH.
  - intros [= <-]. destruct (process_entry_raises _ _ _ _ _ _ E) as [->| ->]; auto.
Qed.

Lemma names_from_dist_info_raises (zf : Zip.archive) (e : exn) :
  Rename.names_from_dist_info zf = Raise e →
  (e = NoDistInfoError
   ∧ Forall (λ name, Py.contains ".dist-info/" name = false) (Zip.namelist zf))
  ∨ (e = IndexError
     ∧ Exists (λ name, Py.contains ".dist-info/" name = true) (Zip.namelist zf)).
Proof.
  unfold Rename.names_from_dist_info.
  destruct (filter _ (Zip.namelist zf)) as [|first rest] eqn:E.
  - intros [= <-]. left. split; [done|].
    apply Forall_forall. intros name Hin.
    destruct (Py.contains ".dist-info/" name) eqn:Hc; [|done].
    assert (name ∈ filter (λ n, Py.contains ".dist-info/" n = true) (Zip.namelist zf))
      as Hf by (by apply list_elem_of_filter).
    rewrite E in Hf. by apply not_elem_of_nil in Hf.
  - intros H. right. split.
    + revert H. repeat case_match; intros Hr; by simplify_eq.
    + apply Exists_exists. exists first.
      assert (first ∈ filter (λ n, Py.contains ".dist-info/" n = true) (Zip.namelist zf))
        as Hf by (rewrite E; left).
      by apply list_elem_of_filter in Hf as [? ?].
Qed.

Lemma parse_wheel_filename_raises (filename : string) (e : exn) :
  Rename._parse_wheel_filename filename = Raise e →
  e = InvalidWheelFilename ∨ e = IndexError.
Proof.
  unfold Rename._parse_wheel_filename.
  destruct (_ <? 5); [naive_solver|].
  destruct (6 <=? _); cbn; [|done].
  destruct (Py.head _); cbn; [|naive_solver].
  by destruct (Py.isdigit _).
Qed.

Lemma rename_wheel_raises path_exists open_zip wheel_path new_name output_dir ui (e : exn) :
  (Rename.rename_wheel path_exists open_zip wheel_path new_name output_dir ui).2 = Raise e →
  e ∈ [FileNotFoundError; NotAWheelFile; InvalidWheelFilename; IndexError;
       SameNameError; BadZipFile; KeyError; UnicodeDecodeError; TemplateEscape].
Proof.
  unfold Rename.rename_wheel.
  destruct (negb (path_exists wheel_path)); [cbn; intros [= <-]; set_solver|].
  destruct (negb (bool_decide _)); [cbn; intros [= <-]; set_solver|].
  destruct (Rename._parse_wheel_filename _) as [c|e'] eqn:Hp; cycle 1.
  { cbn. intros [= <-]. apply parse_wheel_filename_raises in Hp as [->| ->]; set_solver. }
  case_bool_decide; [cbn; intros [= <-]; set_solver|].
  destruct (open_zip wheel_path) as [zf|]; [|cbn; intros [= <-]; set_solver].
  destruct (Rename.process_entries _ _ _ _) eqn:Hpe; [done|].
  cbn. intros [= <-].
  apply process_entries_raises in Hpe as [->|[->| ->]]; set_solver.
Qed.

Lemma rename_wheel_from_bytes_raises unzip wheel_bytes new_name ui (e : exn) :
  Rename.rename_wheel_from_bytes unzip wheel_bytes new_name ui = Raise e →
  e ∈ [BadZipFile; NoDistInfoError; IndexError; KeyError; UnicodeDecodeError;
       TemplateEscape].
Proof.
  unfold Rename.rename_wheel_from_bytes.
  destruct (unzip wheel_bytes) as [zf|]; [|intros [= <-]; set_solver].
  destruct (Rename.names_from_dist_info zf) as [[o v]|e'] eqn:Hn; cbn.
  - case_bool_decide; [done|].
    destruct (Rename.process_entries _ _ _ _) eqn:Hpe; [done|].
    cbn. intros [= <-].
    apply process_entries_raises in Hpe as [->|[->| ->]]; set_solver.
  - intros [= <-].
    apply names_from_dist_info_raises in Hn as [[-> _]|[-> _]]; set_solver.
Qed.

(** ** Renaming to the same name *)

(** Claim C2 as stated fails on the in-memory path: renaming the demo
    wheel to [Demo], whose normalized form is the old name [demo], does
    not fail; the input buffer is returned. *)
Lemma from_bytes_same_name_not_rejected :
  Rename._normalize_name "Demo" = "demo"
  ∧ Rename.names_from_dist_info demo_wheel = Ok ("demo", "1.0.0")
  ∧ Rename.rename_wheel_from_bytes demo_unzip demo_bytes "Demo" true
    = Ok (Rename.InputBuffer demo_bytes).
Proof. repeat split; reflexivity. Qed.

(** Claim C2, amended.  For every wheel file that exists, has the
    suffix [.whl] and a filename that parses, and every new name whose
    normalized form is the normalized distribution name of the filename,
    [rename_wheel] raises the same-name error and has no effect on the
    file system.  [rename_wheel_from_bytes] never raises that error. *)
Theorem rename_same_name :
  (∀ path_exists open_zip wheel_path new_name output_dir update_imports c,
     path_exists wheel_path = true →
     Py.path_suffix wheel_path = ".whl" →
     Rename._parse_wheel_filename (Py.path_name wheel_path) = Ok c →
     Rename._normalize_name (Rename.distribution c) = Rename._normalize_name new_name →
     Rename.rename_wheel path_exists open_zip wheel_path new_name output_dir
       update_imports = ([], Raise SameNameError))
  ∧ (∀ unzip wheel_bytes new_name update_imports,
       Rename.rename_wheel_from_bytes unzip wheel_bytes new_name update_imports
       ≠ Raise SameNameError).
Proof.
  split.
  - intros path_exists open_zip wheel_path new_name output_dir ui c He Hs Hp Hn.
    unfold Rename.rename_wheel. rewrite He, Hs, Hp. cbn [negb].
    rewrite bool_decide_eq_true_2 by done. cbn [negb].
    by rewrite bool_decide_eq_true_2.
  - intros unzip wheel_bytes new_name ui H.
    apply rename_wheel_from_bytes_raises in H. not_listed H.
Qed.

Lemma rename_same_name_witness :
  Rename.rename_wheel (λ _, true) (λ _, Some demo_wheel)
    "dist/demo-1.0.0-py3-none-any.whl" "Demo" None true = ([], Raise SameNameError).
Proof.
  apply (proj1 rename_same_name (λ _, true) (λ _, Some demo_wheel)
           "dist/demo-1.0.0-py3-none-any.whl" "Demo" None true
           (Rename.Components "demo" "1.0.0" "" "py3" "none" "any"));
    reflexivity.
Defined.

(** Claim C10.  When the old name that [rename_wheel_from_bytes] reads
    from the first [.dist-info] entry of the archive is already the
    normalized new name, the function returns its input buffer, and
    does not fail. *)
Theorem from_bytes_same_name_identity
    unzip (wheel_bytes : list byte) (new_name : string) (update_imports : bool)
    (zf : Zip.archive) (old_name version : string) :
  unzip wheel_bytes = Some zf →
  Rename.names_from_dist_info zf = Ok (old_name, version) →
  old_name = Rename._normalize_name new_name →
  Rename.rename_wheel_from_bytes unzip wheel_bytes new_name update_imports
  = Ok (Rename.InputBuffer wheel_bytes).
Proof.
  intros Hz Hn Ho. unfold Rename.rename_wheel_from_bytes.
  rewrite Hz, Hn. cbn. by rewrite bool_decide_eq_true_2.
Qed.

Lemma from_bytes_same_name_identity_witness :
  Rename.rename_wheel_from_bytes demo_unzip demo_bytes "demo" true
  = Ok (Rename.InputBuffer demo_bytes).
Proof.
  apply (from_bytes_same_name_identity demo_unzip demo_bytes "demo" true
           demo_wheel "demo" "1.0.0"); reflexivity.
Defined.

(** ** A wheel without a metadata directory *)

(** Claim C4 as stated fails on the file-based path: a wheel that holds
    no entry under [demo-1.0.0.dist-info/] is renamed without error. *)
Lemma rename_wheel_without_dist_info :
  Forall (λ name, Py.startswith name "demo-1.0.0.dist-info/" = false)
    (Zip.namelist bare_wheel)
  ∧ (Rename.rename_wheel (λ _, true) (λ _, Some bare_wheel)
       "demo-1.0.0-py3-none-any.whl" "demo_v1" None true).2
    = Ok (Rename.ParentOf "demo-1.0.0-py3-none-any.whl",
          "demo_v1-1.0.0-py3-none-any.whl").
Proof. split; [by repeat constructor|]. vm_compute. reflexivity. Qed.

(** Claim C4, amended.  [rename_wheel_from_bytes] raises the missing
    [.dist-info] error exactly when no name of the archive holds the
    text [.dist-info/]; [rename_wheel], which takes the old name and
    the version from the filename, never raises it. *)
Theorem missing_dist_info :
  (∀ unzip wheel_bytes new_name update_imports zf,
     unzip wheel_bytes = Some zf →
     (Rename.rename_wheel_from_bytes unzip wheel_bytes new_name update_imports
        = Raise NoDistInfoError
      ↔ Forall (λ name, Py.contains ".dist-info/" name = false) (Zip.namelist zf)))
  ∧ (∀ path_exists open_zip wheel_path new_name output_dir update_imports,
       (Rename.rename_wheel path_exists open_zip wheel_path new_name output_dir
          update_imports).2 ≠ Raise NoDistInfoError).
Proof.
  split.
  - intros unzip wheel_bytes new_name ui zf Hz.
    unfold Rename.rename_wheel_from_bytes. rewrite Hz. split.
    + destruct (Rename.names_from_dist_info zf) as [[o v]|e] eqn:Hn; cbn.
      * case_bool_decide; [done|].
        destruct (Rename.process_entries _ _ _ _) eqn:Hpe; [done|].
        cbn. intros [= ->].
        by destruct (process_entries_raises _ _ _ _ _ Hpe) as [?|[?|?]].
      * intros [= ->].
        by destruct (names_from_dist_info_raises _ _ Hn) as [[_ ?]|[? _]].
    + intros Hall. unfold Rename.names_from_dist_info.
      assert (filter (λ n, Py.contains ".dist-info/" n = true) (Zip.namelist zf) = [])
        as ->; [|done].
      induction Hall as [|name l Hname Hall IH]; [done|].
      rewrite filter_cons_False by (by rewrite Hname). done.
  - intros path_exists open_zip wheel_path new_name output_dir ui H.
    apply rename_wheel_raises in H. not_listed H.
Qed.

Lemma missing_dist_info_witness :
  Rename.rename_wheel_from_bytes (λ _, Some bare_wheel) demo_bytes "demo_v1" true
    = Raise NoDistInfoError
  ↔ Forall (λ name, Py.contains ".dist-info/" name = false) (Zip.namelist bare_wheel).
Proof.
  apply (proj1 missing_dist_info (λ _, Some bare_wheel) demo_bytes "demo_v1" true
           bare_wheel); reflexivity.
Defined.

(** ** The listing of a project by the upstream client *)

Section upstream_listing.
Context {S : Type}.
Variable http_get : string → Upstream.get_outcome.
Variable from_html : string → string → string → result (list Upstream.page_package).
Variable parse_specifier_set : string → option S.
Variable specifier_set_truthy : S → bool.
Variable version_in : string → S → option bool.

Local Abbreviation get_project_page :=
  (Upstream.get_project_page http_get from_html S parse_specifier_set
     specifier_set_truthy version_in).
Local Abbreviation packages_of_page :=
  (Upstream.packages_of_page from_html S parse_specifier_set
     specifier_set_truthy version_in).

(** An upstream that answers 404, another failure status, or no
    response at all, is passed over. *)
Lemma get_project_page_skip (u : string) (upstreams : list string)
    (project : string) (rule : option Config.RenameRule) :
  upstream_answer http_get project u = None →
  get_project_page true (u :: upstreams) project rule
  = get_project_page true upstreams project rule.
Proof.
  unfold upstream_answer. cbn.
  destruct (http_get _) as [|status text]; [done|].
  destruct (status =? 404)%Z; [done|].
  by destruct (Upstream.is_success status).
Qed.

(** An upstream that answers with a page ends the search. *)
Lemma get_project_page_answer (u : string) (upstreams : list string)
    (project text : string) (rule : option Config.RenameRule) :
  upstream_answer http_get project u = Some text →
  get_project_page true (u :: upstreams) project rule
  = packages_of_page project u text rule.
Proof.
  unfold upstream_answer. cbn.
  destruct (http_get _) as [|status text']; [done|].
  destruct (Upstream.is_success status) eqn:Hs; [|done].
  intros [= ->].
  assert ((status =? 404)%Z = false) as ->; [|done].
  unfold Upstream.is_success in Hs. lia.
Qed.

(** Claim C5, amended.  [get_project_page] tries the upstreams in
    their order and passes over each one that answers 404, another
    failure status, or raises an HTTP error.  It returns the records
    read from the page of the first upstream that answers with a
    success status, whether or not that list is empty, without asking
    the upstreams after it; when no upstream answers, it returns the
    empty list. *)
Theorem get_project_page_first_answer
    (project : string) (rule : option Config.RenameRule) :
  (∀ upstreams,
     Forall (λ u, upstream_answer http_get project u = None) upstreams →
     get_project_page true upstreams project rule = Ok [])
  ∧ (∀ before u after text,
       Forall (λ u, upstream_answer http_get project u = None) before →
       upstream_answer http_get project u = Some text →
       get_project_page true (before ++ u :: after) project rule
       = packages_of_page project u text rule).
Proof.
  split.
  - intros upstreams Hall. induction Hall as [|u l Hu Hl IH]; [done|].
    by rewrite get_project_page_skip.
  - intros before u after text Hall Hu.
    induction Hall as [|u' l Hu' Hl IH].
    + by apply get_project_page_answer.
    + cbn [app]. by rewrite get_project_page_skip.
Qed.

End upstream_listing.

(** Claim C5 as stated fails: the first upstream answers with a page
    that lists no wheel, the second with a page that lists one; the
    result is the empty list of the first, not the non-empty list of
    the second. *)
Lemma get_project_page_returns_empty_first :
  upstream_answer two_upstreams_get "demo" "https://first.example/simple"
    = Some "https://first.example/simple/demo/"
  ∧ Upstream.get_project_page two_upstreams_get two_upstreams_html unit
      (λ _, Some tt) (λ _, true) (λ _ _, Some true) true
      ["https://first.example/simple"; "https://second.example/simple/"] "demo" None
    = Ok []
  ∧ Upstream.get_project_page two_upstreams_get two_upstreams_html unit
      (λ _, Some tt) (λ _, true) (λ _ _, Some true) true
      ["https://second.example/simple/"] "demo" None
    = Ok [ Listing.Package "demo-1.0.0-py3-none-any.whl"
             "https://second.example/demo-1.0.0-py3-none-any.whl" None None ].
Proof. repeat split; reflexivity. Qed.

Lemma get_project_page_first_answer_witness :
  Upstream.get_project_page
    (λ url, if bool_decide (url = "https://first.example/simple/demo/")
            then Upstream.Response 404 "" else two_upstreams_get url)
    two_upstreams_html unit (λ _, Some tt) (λ _, true) (λ _ _, Some true) true
    ["https://first.example/simple"] "demo" None = Ok []
  ∧ Upstream.get_project_page
      (λ url, if bool_decide (url = "https://first.example/simple/demo/")
              then Upstream.Response 404 "" else two_upstreams_get url)
      two_upstreams_html unit (λ _, Some tt) (λ _, true) (λ _ _, Some true) true
      (["https://first.example/simple"] ++ "https://second.example/simple/" :: []) "demo" None
    = Upstream.packages_of_page two_upstreams_html unit (λ _, Some tt) (λ _, true)
        (λ _ _, Some true) "demo" "https://second.example/simple/"
        "https://second.example/simple/demo/" None.
Proof.
  split.
  - apply (proj1 (get_project_page_first_answer _ two_upstreams_html (λ _, Some tt)
                    (λ _, true) (λ _ _, Some true) "demo" None)).
    repeat constructor.
  - apply (proj2 (get_project_page_first_answer _ two_upstreams_html (λ _, Some tt)
                    (λ _, true) (λ _ _, Some true) "demo" None)).
    + repeat constructor.
    + reflexivity.
Defined.

(** ** Rewriting of the imports of a source entry *)










(** Appends brought to their right-nested form. *)
Ltac str_norm := rewrite ?str_app_assoc, ?str_app_cons, ?str_app_nil_l, ?str_app_nil_r.






(** ** Strings: cancellation, last characters, characters kept *)

Lemma str_app_inv_l (a x y : string) : a +:+ x = a +:+ y → x = y.
Proof. apply (inj (String.app a)). Qed.



Lemma prefix_app_same (a x y : string) :
  String.prefix (a +:+ x) (a +:+ y) = String.prefix x y.
Proof.
  induction a as [|c a IH]; [done|]. rewrite !str_app_cons. cbn.
  by destruct (ascii_dec c c).
Qed.




Lemma has_char_nth (c : ascii) (i : nat) (l : list string) :
  Forall (λ p, has_char c p = false) l → has_char c (nth i l "") = false.
Proof.
  intros H. revert i. induction H as [|x l Hx Hl IH]; intros [|i]; try done.
  apply IH.
Qed.

Lemma lower_char_dash (x : ascii) :
  Ascii.eqb (Py.lower_char x) "-" = Ascii.eqb x "-".
Proof. by destruct x as [[] [] [] [] [] [] [] []]. Qed.


Lemma has_char_lower (c : ascii) (s : string) :
  (∀ x, Ascii.eqb (Py.lower_char x) c = Ascii.eqb x c) →
  has_char c (Py.lower s) = has_char c s.
Proof.
  intros Hc. induction s as [|x s IH]; [done|]. cbn. by rewrite Hc, IH.
Qed.


Lemma sub_sep_runs_no_dash (in_run : bool) (name : string) :
  has_char "-" (Rename.sub_sep_runs "_" in_run name) = false.
Proof.
  revert in_run. induction name as [|x s IH]; intros in_run; [reflexivity|].
  cbn. destruct (Rename.is_name_sep x) eqn:Hx; [destruct in_run|].
  - apply IH.
  - rewrite has_char_app. cbn. apply IH.
  - cbn. rewrite IH, orb_false_r.
    unfold Rename.is_name_sep in Hx.
    by destruct (Ascii.eqb x "-").
Qed.

(** A normalized name holds no dash. *)
Lemma normalize_no_dash (name : string) :
  has_char "-" (Rename._normalize_name name) = false.
Proof.
  unfold Rename._normalize_name. rewrite has_char_lower by apply lower_char_dash.
  apply sub_sep_runs_no_dash.
Qed.



(** ** The path of an entry in the renamed wheel *)

Lemma new_file_name_cases (n : Rename.names) (name : string) :
  (Rename.new_file_name n name = name ∧ has_old_prefix n name = false)
  ∨ ∃ rest, is_below rest = true ∧
      ((name = Rename.old_name_normalized n +:+ rest
        ∧ Rename.new_file_name n name = Rename.new_name_normalized n +:+ rest)
       ∨ (name = Rename.old_dist_info n +:+ rest
          ∧ Rename.new_file_name n name = Rename.new_dist_info n +:+ rest)
       ∨ (name = Rename.old_data_dir n +:+ rest
          ∧ Rename.new_file_name n name = Rename.new_data_dir n +:+ rest)).
Proof.
  unfold Rename.new_file_name, Rename.new_file_name_of, has_old_prefix.
  destruct (Py.startswith name (Rename.old_name_normalized n +:+ "/")) eqn:E1.
  { apply startswith_spec in E1 as [t ->]. rewrite str_app_assoc, slice_from_app.
    right. exists ("/" +:+ t). split; [done|]. by left. }
  case_bool_decide as E2.
  { subst name. rewrite slice_from_all. right. exists "". split; [done|].
    left. by rewrite !str_app_nil_r. }
  cbn [orb].
  destruct (Py.startswith name (Rename.old_dist_info n +:+ "/")) eqn:E3.
  { apply startswith_spec in E3 as [t ->]. rewrite str_app_assoc, slice_from_app.
    right. exists ("/" +:+ t). split; [done|]. right. by left. }
  case_bool_decide as E4.
  { subst name. rewrite slice_from_all. right. exists "". split; [done|].
    right. left. by rewrite !str_app_nil_r. }
  cbn [orb].
  destruct (Py.startswith name (Rename.old_data_dir n +:+ "/")) eqn:E5.
  { apply startswith_spec in E5 as [t ->]. rewrite str_app_assoc, slice_from_app.
    right. exists ("/" +:+ t). split; [done|]. right. by right. }
  case_bool_decide as E6.
  { subst name. rewrite slice_from_all. right. exists "". split; [done|].
    right. right. by rewrite !str_app_nil_r. }
  by left.
Qed.

Lemma is_below_inv (rest : string) :
  is_below rest = true → rest = "" ∨ ∃ r, rest = "/" +:+ r.
Proof.
  destruct rest as [|c r]; [by left|]. cbn. intros ->%Ascii.eqb_eq.
  right. by exists r.
Qed.

Lemma prefix_cons (c d : ascii) (a b : string) :
  String.prefix (String c a) (String d b) = Ascii.eqb c d && String.prefix a b.
Proof.
  cbn [String.prefix]. destruct (ascii_dec c d) as [->|Hne].
  - by rewrite Ascii.eqb_refl.
  - by apply Ascii.eqb_neq in Hne as ->.
Qed.

Lemma prefix_nil (s : string) : String.prefix "" s = true.
Proof. by destruct s. Qed.



Lemma new_file_name_root (n : Rename.names) (rest : string) :
  is_below rest = true →
  Rename.new_file_name n (Rename.old_name_normalized n +:+ rest)
  = Rename.new_name_normalized n +:+ rest.
Proof.
  intros Hr. unfold Rename.new_file_name, Rename.new_file_name_of.
  assert (Py.startswith (Rename.old_name_normalized n +:+ rest)
            (Rename.old_name_normalized n +:+ "/")
          || bool_decide (Rename.old_name_normalized n +:+ rest
                          = Rename.old_name_normalized n) = true) as ->.
  { apply is_below_inv in Hr as [->|[r ->]].
    - rewrite str_app_nil_r, bool_decide_eq_true_2 by done. apply orb_true_r.
    - unfold Py.startswith. rewrite prefix_app_same. str_norm.
      by rewrite prefix_cons, prefix_nil. }
  by rewrite slice_from_app.
Qed.

(** The second and third branches, when the earlier tests fail. *)
Lemma new_file_name_of_second (o nn odi ndi odd ndd rest : string) :
  Py.startswith (odi +:+ "/" +:+ rest) (o +:+ "/") = false →
  odi +:+ "/" +:+ rest ≠ o →
  Rename.new_file_name_of o nn odi ndi odd ndd (odi +:+ "/" +:+ rest)
  = ndi +:+ "/" +:+ rest.
Proof.
  intros H1 H2. unfold Rename.new_file_name_of.
  rewrite H1, bool_decide_eq_false_2 by done. cbn [orb].
  assert (Py.startswith (odi +:+ "/" +:+ rest) (odi +:+ "/") = true) as ->.
  { apply startswith_spec. exists rest. by rewrite str_app_assoc. }
  cbn [orb]. by rewrite slice_from_app.
Qed.

Lemma new_file_name_of_third (o nn odi ndi odd ndd rest : string) :
  Py.startswith (odd +:+ "/" +:+ rest) (o +:+ "/") = false →
  odd +:+ "/" +:+ rest ≠ o →
  Py.startswith (odd +:+ "/" +:+ rest) (odi +:+ "/") = false →
  odd +:+ "/" +:+ rest ≠ odi →
  Rename.new_file_name_of o nn odi ndi odd ndd (odd +:+ "/" +:+ rest)
  = ndd +:+ "/" +:+ rest.
Proof.
  intros H1 H2 H3 H4. unfold Rename.new_file_name_of.
  rewrite H1, H3, !bool_decide_eq_false_2 by done. cbn [orb].
  assert (Py.startswith (odd +:+ "/" +:+ rest) (odd +:+ "/") = true) as ->.
  { apply startswith_spec. exists rest. by rewrite str_app_assoc. }
  cbn [orb]. by rewrite slice_from_app.
Qed.

(** A name followed by a dash is not a prefix of the name followed by
    a slash, and so on: the reserved prefixes exclude one another. *)
Lemma dash_not_slash (o t : string) :
  Py.startswith (o +:+ "-" +:+ t) (o +:+ "/") = false.
Proof.
  unfold Py.startswith. rewrite prefix_app_same. str_norm. by rewrite prefix_cons.
Qed.

Lemma app_dash_neq (o t : string) : o +:+ "-" +:+ t ≠ o.
Proof.
  intros H. rewrite <-(str_app_nil_r o) in H at 2. by apply str_app_inv_l in H.
Qed.

Lemma data_not_dist_info (o v t : string) :
  Py.startswith (o +:+ "-" +:+ v +:+ ".data" +:+ t) (o +:+ "-" +:+ v +:+ ".dist-info" +:+ "/")
  = false.
Proof.
  unfold Py.startswith.
  rewrite (prefix_app_same o), (prefix_app_same "-"), (prefix_app_same v).
  str_norm. by rewrite !prefix_cons.
Qed.

Lemma data_neq_dist_info (o v t u : string) :
  o +:+ "-" +:+ v +:+ ".data" +:+ t ≠ o +:+ "-" +:+ v +:+ ".dist-info" +:+ u.
Proof.
  intros H. do 3 apply str_app_inv_l in H.
  rewrite !str_app_cons in H. by simplify_eq.
Qed.


Lemma new_file_name_dist_info (n : Rename.names) (rest : string) :
  Rename.new_file_name n (Rename.old_dist_info n +:+ "/" +:+ rest)
  = Rename.new_dist_info n +:+ "/" +:+ rest.
Proof.
  unfold Rename.new_file_name. apply new_file_name_of_second.
  - unfold Rename.old_dist_info. rewrite !str_app_assoc. apply dash_not_slash.
  - unfold Rename.old_dist_info. rewrite !str_app_assoc. apply app_dash_neq.
Qed.

Lemma new_file_name_data_dir (n : Rename.names) (rest : string) :
  Rename.new_file_name n (Rename.old_data_dir n +:+ "/" +:+ rest)
  = Rename.new_data_dir n +:+ "/" +:+ rest.
Proof.
  unfold Rename.new_file_name. apply new_file_name_of_third.
  - unfold Rename.old_data_dir. rewrite !str_app_assoc. apply dash_not_slash.
  - unfold Rename.old_data_dir. rewrite !str_app_assoc. apply app_dash_neq.
  - unfold Rename.old_data_dir, Rename.old_dist_info. rewrite !str_app_assoc.
    apply data_not_dist_info.
  - unfold Rename.old_data_dir, Rename.old_dist_info. rewrite !str_app_assoc.
    rewrite <-(str_app_nil_r ".dist-info"). apply data_neq_dist_info.
Qed.




(** ** The dictionary built by the loop *)








(** ** The names the two entry points work with *)










(** ** The paths of the renamed wheel *)



(** ** The lines of the manifest *)









(** The line of the model is the line of the specification. *)
Lemma record_line_manifest (item : string * list byte) :
  Rename.record_line item = manifest_line item.1 item.2.
Proof. done. Qed.




(** ** The order of the entries and of the lines *)

#[local] Instance item_le_total : Total Rename.item_le.
Proof. intros a b. unfold Rename.item_le. apply (total String.le). Qed.

#[local] Instance item_le_trans : Transitive Rename.item_le.
Proof. intros a b c. unfold Rename.item_le. apply (transitivity (R:=String.le)). Qed.

Lemma StronglySorted_strict {A} (R : relation A) `{!AntiSymm (=) R} (l : list A) :
  StronglySorted R l → NoDup l → StronglySorted (strict R) l.
Proof.
  induction 1 as [|x l Hl IH Hx]; intros Hnd; [constructor|].
  apply NoDup_cons in Hnd as [Hnin Hnd]. constructor; [by apply IH|].
  rewrite Forall_forall in Hx. apply Forall_forall. intros y Hy. split.
  - by apply Hx.
  - intros Hyx. assert (x = y) as -> by (apply (anti_symm R); [by apply Hx|done]).
    done.
Qed.



(** ** The RECORD file does not meet an entry of the loop *)







(** The known digest of the test suite. *)
Example compute_record_hash_hello_world :
  Rename._compute_record_hash (Py.encode_utf8 "hello world")
  = "sha256=uU0nuZNNPgilLlLX2n2r-sSE7-N6U4DukIj3rOLvzek".
Proof. vm_compute. reflexivity. Qed.

(** The scenario of the specification: [demo] renamed to [demo_v1]. *)
Example demo_scenario :
  demo_rename.2 = Ok (Rename.ParentOf "dist/demo-1.0.0-py3-none-any.whl",
                      "demo_v1-1.0.0-py3-none-any.whl")
  ∧ (λ item, (item.1, String.string_of_list_byte item.2))
      <$> filter (λ item, item.1 ≠ "demo_v1-1.0.0.dist-info/RECORD")
            (written_entries demo_rename)
    = [ ("demo_v1-1.0.0.dist-info/METADATA",
          "Metadata-Version: 2.1" +:+ nl +:+ "Name: demo_v1" +:+ nl
          +:+ "Version: 1.0.0" +:+ nl);
        ("demo_v1/__init__.py",
          "from demo_v1 import x" +:+ nl +:+ "import demo_v1" +:+ nl
          +:+ "NAME = " +:+ dq +:+ "demo" +:+ dq +:+ nl) ].
Proof. split; vm_compute; reflexivity. Qed.
(** * Part III: further properties of the code *)

(** A decidable statement about given data, settled by evaluation. *)
Ltac by_evaluation :=
  match goal with
  | |- ?P => apply (bool_decide_unpack P); vm_compute; exact I
  end.

(** ** Normalized names *)

Lemma is_name_sep_lower (c : ascii) :
  Rename.is_name_sep (Py.lower_char c) = Rename.is_name_sep c.
Proof. by destruct c as [[] [] [] [] [] [] [] []]. Qed.

Lemma lower_char_idem (c : ascii) : Py.lower_char (Py.lower_char c) = Py.lower_char c.
Proof. by destruct c as [[] [] [] [] [] [] [] []]. Qed.

Lemma lower_char_not_upper (c : ascii) : Py.is_upper (Py.lower_char c) = false.
Proof. by destruct c as [[] [] [] [] [] [] [] []]. Qed.

Lemma lower_char_sep (c r : ascii) :
  Rename.is_name_sep c = true → Py.lower_char c = c.
Proof. by destruct c as [[] [] [] [] [] [] [] []]. Qed.

Lemma lower_idem (s : string) : Py.lower (Py.lower s) = Py.lower s.
Proof. induction s as [|c s IH]; [done|]. cbn. by rewrite lower_char_idem, IH. Qed.

Lemma lower_app (a b : string) : Py.lower (a +:+ b) = Py.lower a +:+ Py.lower b.
Proof. induction a as [|c a IH]; [done|]. rewrite str_app_cons. cbn. by rewrite IH. Qed.

Lemma lower_no_upper (s : string) : no_upper (Py.lower s) = true.
Proof. induction s as [|c s IH]; [done|]. cbn. by rewrite lower_char_not_upper, IH. Qed.

(** Lowering the case and replacing the runs of separators commute,
    the replacement being in lower case. *)
Lemma sub_sep_runs_lower (rep : string) (in_run : bool) (s : string) :
  Py.lower rep = rep →
  Rename.sub_sep_runs rep in_run (Py.lower s) = Py.lower (Rename.sub_sep_runs rep in_run s).
Proof.
  intros Hrep. revert in_run. induction s as [|c s IH]; intros in_run; [done|].
  cbn. rewrite is_name_sep_lower. destruct (Rename.is_name_sep c); [destruct in_run|].
  - apply IH.
  - by rewrite lower_app, Hrep, IH.
  - cbn. by rewrite IH.
Qed.

Lemma sub_sep_runs_single (r : ascii) (in_run : bool) (s : string) :
  Rename.is_name_sep r = true →
  single_seps r in_run (Rename.sub_sep_runs (String r "") in_run s) = true.
Proof.
  intros Hr. revert in_run. induction s as [|c s IH]; intros in_run; [done|].
  cbn. destruct (Rename.is_name_sep c) eqn:Hc; [destruct in_run|].
  - apply IH.
  - rewrite str_app_cons, str_app_nil_l. cbn. by rewrite Hr, Ascii.eqb_refl, IH.
  - cbn. rewrite Hc. apply IH.
Qed.

Lemma sub_sep_runs_fixed (r : ascii) (in_run : bool) (s : string) :
  single_seps r in_run s = true → Rename.sub_sep_runs (String r "") in_run s = s.
Proof.
  revert in_run. induction s as [|c s IH]; intros in_run; [done|].
  cbn. destruct (Rename.is_name_sep c).
  - destruct in_run; [done|]. cbn.
    intros [->%Ascii.eqb_eq H]%andb_true_iff.
    rewrite str_app_cons, str_app_nil_l. by rewrite IH.
  - intros H. by rewrite IH.
Qed.

Lemma single_seps_lower (r : ascii) (in_run : bool) (s : string) :
  single_seps r in_run (Py.lower s) = single_seps r in_run s.
Proof.
  revert in_run. induction s as [|c s IH]; intros in_run; [done|].
  cbn. rewrite is_name_sep_lower. destruct (Rename.is_name_sep c) eqn:Hc.
  - by rewrite (lower_char_sep c r Hc), IH.
  - apply IH.
Qed.

(** Property X1.
    [_normalize_name] is idempotent: a normalized name is its own
    normal form. *)
Theorem normalize_name_idempotent (name : string) :
  Rename._normalize_name (Rename._normalize_name name) = Rename._normalize_name name.
Proof.
  unfold Rename._normalize_name.
  rewrite sub_sep_runs_lower by done. rewrite lower_idem. f_equal.
  apply sub_sep_runs_fixed, sub_sep_runs_single. done.
Qed.

Lemma single_seps_no_double (r : ascii) (in_run : bool) (s : string) :
  Rename.is_name_sep r = true →
  single_seps r in_run s = true →
  Py.contains (String r (String r "")) s = false
  ∧ (in_run = true → Py.startswith s (String r "") = false).
Proof.
  intros Hr. revert in_run. induction s as [|c s IH]; intros in_run; [done|].
  cbn [single_seps Py.contains]. unfold Py.startswith in *. rewrite !prefix_cons.
  destruct (Rename.is_name_sep c) eqn:Hc.
  - intros [[Hin ->%Ascii.eqb_eq]%andb_true_iff H]%andb_true_iff.
    destruct (IH true H) as [IH1 IH2]. rewrite Ascii.eqb_refl, IH1. cbn [andb orb].
    rewrite (IH2 eq_refl). split; [done|]. intros ->. done.
  - intros H. destruct (IH false H) as [IH1 _]. rewrite IH1.
    assert (Ascii.eqb r c = false) as ->.
    { apply Ascii.eqb_neq. intros ->. congruence. }
    done.
Qed.

Lemma sub_sep_runs_no_dot (in_run : bool) (name : string) :
  has_char "." (Rename.sub_sep_runs "_" in_run name) = false.
Proof.
  revert in_run. induction name as [|c s IH]; intros b; [reflexivity|]. cbn.
  destruct (Rename.is_name_sep c) eqn:Hc; [destruct b|].
  - apply IH.
  - rewrite has_char_app. cbn. apply IH.
  - cbn. rewrite IH, orb_false_r. unfold Rename.is_name_sep in Hc.
    by apply orb_false_iff in Hc as [_ Hc].
Qed.

(** Property X2.
    The normal form: no dash, no dot, no upper-case letter, and no two
    underscores in a row. *)
Theorem normalize_name_normal_form (name : string) :
  let n := Rename._normalize_name name in
  has_char "-" n = false ∧ has_char "." n = false ∧ no_upper n = true
  ∧ Py.contains "__" n = false.
Proof.
  cbn zeta. split; [apply normalize_no_dash|]. split; [|split].
  - unfold Rename._normalize_name.
    assert (∀ x, Ascii.eqb (Py.lower_char x) "." = Ascii.eqb x ".") as Hl
      by (by intros [[] [] [] [] [] [] [] []]).
    rewrite (has_char_lower _ _ Hl). apply sub_sep_runs_no_dot.
  - apply lower_no_upper.
  - unfold Rename._normalize_name.
    eapply proj1, (single_seps_no_double "_" false); [done|].
    rewrite single_seps_lower. by apply sub_sep_runs_single.
Qed.
(** ** Reading the archive never misses a member *)




(** ** What [rename_wheel] does to the file system *)


(** ** The two entry points agree *)



(** ** Where the content of an output entry comes from *)












(** ** No other entry named RECORD *)





(** ** The metadata entry without a name line *)


(** ** The name of the renamed wheel *)







(** ** The hash of a manifest line *)

Lemma be_bytes_length (n : nat) (x : Z) : length (Sha256.be_bytes n x) = n.
Proof. induction n as [|n IH]; [done|]. cbn. by rewrite IH. Qed.

Lemma digest_length (data : list byte) : length (Sha256.digest data) = 32.
Proof.
  unfold Sha256.digest. cbv zeta.
  by rewrite length_fmap, !length_app, !be_bytes_length.
Qed.

Lemma digit_urlsafe (i : N) : (i < 64)%N → urlsafe_char (Base64.digit i) = true.
Proof.
  intros Hi. unfold Base64.digit.
  assert (N.to_nat i < 64) as Hn by lia. revert Hn.
  generalize (N.to_nat i). intros n Hn.
  do 64 (destruct n as [|n]; [done|]). lia.
Qed.

Lemma all_chars_app (p : ascii → bool) (a b : string) :
  all_chars p (a +:+ b) = all_chars p a && all_chars p b.
Proof.
  induction a as [|c a IH]; [done|]. rewrite str_app_cons. cbn.
  by rewrite IH, andb_assoc.
Qed.

Lemma rstrip_padding (body : string) :
  all_chars urlsafe_char body = true → Py.rstrip "=" (body +:+ "=") = body.
Proof.
  induction body as [|x body IH]; [done|].
  rewrite str_app_cons. cbn [all_chars Py.rstrip].
  intros [Hx Hb]%andb_true_iff. rewrite (IH Hb).
  destruct body; [|done].
  destruct (Ascii.eqb_spec x "=") as [->|]; done.
Qed.

(** The encoding of [3 k + 2] bytes: [4 k + 3] characters of the
    alphabet and one padding character. *)
Lemma encode_two_more (k : nat) (bs : list N) :
  length bs = 3 * k + 2 → Forall (λ b, (b < 256)%N) bs →
  ∃ body, Base64.encode bs = body +:+ "="
          ∧ Py.len body = 4 * k + 3
          ∧ all_chars urlsafe_char body = true.
Proof.
  revert bs. induction k as [|k IH]; intros bs Hlen Hall.
  - destruct bs as [|a [|b [|c rest]]]; try done.
    apply Forall_cons in Hall as [Ha [Hb _]%Forall_cons].
    eexists (String _ (String _ (String _ ""))). split; [reflexivity|].
    split; [done|]. cbn [all_chars].
    rewrite !digit_urlsafe; [done|..].
    + assert (b `mod` 16 < 16)%N by (apply N.mod_lt; lia). lia.
    + assert (a `mod` 4 < 4)%N by (apply N.mod_lt; lia).
      assert (b `div` 16 < 16)%N by (apply N.Div0.div_lt_upper_bound; lia). lia.
    + apply N.Div0.div_lt_upper_bound; lia.
  - destruct bs as [|a [|b [|c rest]]]; try (cbn in Hlen; lia).
    apply Forall_cons in Hall as [Ha [Hb [Hc Hall]%Forall_cons]%Forall_cons].
    destruct (IH rest) as (body & He & Hl & Hu); [cbn in Hlen; lia|done|].
    exists (String (Base64.digit (a `div` 4))
              (String (Base64.digit (a `mod` 4 * 16 + b `div` 16))
                (String (Base64.digit (b `mod` 16 * 4 + c `div` 64))
                  (String (Base64.digit (c `mod` 64)) body)))).
    split; [|split].
    + rewrite !str_app_cons, <-He. by destruct rest.
    + cbn. lia.
    + cbn [all_chars]. rewrite Hu, !digit_urlsafe; [done|..].
      * apply N.mod_lt; lia.
      * assert (b `mod` 16 < 16)%N by (apply N.mod_lt; lia).
        assert (c `div` 64 < 4)%N by (apply N.Div0.div_lt_upper_bound; lia). lia.
      * assert (a `mod` 4 < 4)%N by (apply N.mod_lt; lia).
        assert (b `div` 16 < 16)%N by (apply N.Div0.div_lt_upper_bound; lia). lia.
      * apply N.Div0.div_lt_upper_bound; lia.
Qed.

(** Property X10.
    The hash of a manifest line is [sha256=] followed by exactly 43
    characters of the URL-safe alphabet: the padding of the encoding of
    the 32 bytes of the digest is removed, and nothing else. *)
Theorem record_hash_shape (data : list byte) :
  ∃ body, Rename._compute_record_hash data = "sha256=" +:+ body
          ∧ Py.len body = 43
          ∧ all_chars urlsafe_char body = true.
Proof.
  unfold Rename._compute_record_hash, Base64.urlsafe_b64encode. cbv zeta.
  destruct (encode_two_more 10 (Byte.to_N <$> Sha256.digest data))
    as (body & -> & Hl & Hu).
  { by rewrite length_fmap, digest_length. }
  { apply Forall_fmap, Forall_forall. intros b _. pose proof (Byte.to_N_bounded b) as Hb. unfold compose. lia. }
  exists body. by rewrite rstrip_padding.
Qed.

(** ** The names read from the archive *)

Lemma contains_app (sub a b : string) : Py.contains sub (a +:+ sub +:+ b) = true.
Proof.
  induction a as [|c a IH].
  - rewrite str_app_nil_l.
    assert (∀ s, Py.startswith s sub = true → Py.contains sub s = true) as H.
    { intros [|x s] Hs; cbn [Py.contains]; by rewrite Hs. }
    apply H, prefix_app.
  - rewrite str_app_cons. cbn. rewrite IH. apply orb_true_r.
Qed.

Lemma rfind_from_Some (c : ascii) (i : nat) (s : string) :
  has_char c s = true → ∃ j, Py.rfind_from c i s = Some j.
Proof.
  revert i. induction s as [|x s IH]; intros i; [done|]. cbn.
  destruct (Py.rfind_from c (S i) s) eqn:E; [by eexists|].
  intros [->|Hs]%orb_true_iff; [by eexists|].
  destruct (IH (S i) Hs) as [j Hj]. congruence.
Qed.

Lemma replace_go_skip_prefix (old new d t : string) (x : ascii) :
  has_char x d = false →
  Py.replace_go (String x old) new 0 (d +:+ t)
  = d +:+ Py.replace_go (String x old) new 0 t.
Proof.
  induction d as [|c d IH]; intros H; [by rewrite !str_app_nil_l|].
  cbn in H. apply orb_false_iff in H as [Hc Hd].
  rewrite !str_app_cons. cbn [Py.replace_go]. unfold Py.startswith.
  rewrite prefix_cons, Ascii.eqb_sym, Hc. cbn [andb]. by rewrite (IH Hd).
Qed.

Lemma dist_info_not_prefix (w : string) :
  has_char "-" w = false → w ≠ "" →
  String.prefix ".dist-info" (w +:+ ".dist-info") = false.
Proof.
  intros Hw Hne.
  destruct w as [|c1 [|c2 [|c3 [|c4 [|c5 [|c6 w]]]]]]; [done|..];
    rewrite ?str_app_cons, ?str_app_nil_l, !prefix_cons;
    do 5 (apply andb_false_iff; right); apply andb_false_iff; left.
  all: try done.
  cbn [has_char] in Hw. rewrite Ascii.eqb_sym.
  do 5 (apply orb_false_iff in Hw as [_ Hw]).
  by apply orb_false_iff in Hw as [Hw _].
Qed.

Lemma replace_dist_info_suffix (v : string) :
  has_char "-" v = false → Py.replace ".dist-info" "" (v +:+ ".dist-info") = v.
Proof.
  unfold Py.replace. induction v as [|c v IH]; intros H; [done|].
  rewrite str_app_cons. cbn [Py.replace_go]. unfold Py.startswith.
  rewrite <-str_app_cons, dist_info_not_prefix by done.
  cbn in H. apply orb_false_iff in H as [_ H]. by rewrite IH.
Qed.

Lemma slice_from_S_app (p t : string) (c : ascii) :
  Py.slice_from (S (Py.len p)) (p +:+ String c t) = t.
Proof. induction p as [|x p IH]; [done|]. by rewrite str_app_cons. Qed.

(** Property X11.
    When the first name of the archive that holds [.dist-info/] lies
    in a directory [d-v.dist-info], where [d] holds no dash, dot or
    slash and [v] no dash or slash, the names read from the archive are
    [d] and [v]. *)
Theorem names_from_standard_dist_info (before after : Zip.archive)
    (d v rest : string) (content : list byte) :
  Forall (λ e, Py.contains ".dist-info/" e.1 = false) before →
  has_char "-" d = false → has_char "." d = false → has_char "/" d = false →
  has_char "-" v = false → has_char "/" v = false →
  Rename.names_from_dist_info
    (before ++ (d +:+ "-" +:+ v +:+ ".dist-info/" +:+ rest, content) :: after)
  = Ok (d, v).
Proof.
  intros Hbefore Hd Hdd Hds Hv Hvs. unfold Rename.names_from_dist_info.
  unfold Zip.namelist. rewrite fmap_app, filter_app, fmap_cons, filter_cons.
  assert (filter (λ n, Py.contains ".dist-info/" n = true) before.*1 = []) as ->.
  { induction Hbefore as [|e l He _ IH]; [done|].
    rewrite fmap_cons, filter_cons. cbn [fst]. rewrite decide_False by congruence.
    done. }
  cbn [fst app].
  rewrite decide_True; cycle 1.
  { rewrite <-(str_app_assoc "-" v), <-(str_app_assoc d). apply contains_app. }
  cbv zeta.
  set (dir := d +:+ "-" +:+ v +:+ ".dist-info").
  assert (d +:+ "-" +:+ v +:+ ".dist-info/" +:+ rest = dir +:+ String "/" rest) as ->.
  { unfold dir. rewrite !str_app_assoc. by rewrite !str_app_cons, !str_app_nil_l. }
  rewrite split_app_sep; cycle 1.
  { unfold dir. by rewrite !has_char_app, Hds, Hvs. }
  cbn [nth].
  destruct (rfind_from_Some "-" 0 dir) as [j Hj].
  { unfold dir. by rewrite !has_char_app, orb_true_r. }
  unfold Py.rsplit1 at 1, Py.rfind. rewrite Hj.
  unfold dir, Py.replace.
  rewrite replace_go_skip_prefix, (replace_go_skip_prefix _ _ "-") by done.
  fold (Py.replace ".dist-info" "" (v +:+ ".dist-info")).
  rewrite replace_dist_info_suffix by done.
  unfold Py.rsplit1, Py.rfind.
  rewrite str_app_cons, str_app_nil_l, rfind_from_app by done.
  cbn [Nat.add length nth Nat.ltb Nat.leb].
  by rewrite slice_to_app, slice_from_S_app.
Qed.

Lemma names_from_standard_dist_info_witness :
  Rename.names_from_dist_info
    ([("demo/__init__.py", [])]
     ++ ("demo" +:+ "-" +:+ "1.0.0" +:+ ".dist-info/" +:+ "METADATA", []) :: [])
  = Ok ("demo", "1.0.0").
Proof.
  apply (names_from_standard_dist_info [("demo/__init__.py", [])] []
           "demo" "1.0.0" "METADATA" []); try reflexivity.
  repeat constructor.
Defined.
(** ** The two normalizations *)

Lemma with_sep_sub_sep_runs (r r' : ascii) (in_run : bool) (s : string) :
  Rename.is_name_sep r = true →
  with_sep r' (Rename.sub_sep_runs (String r "") in_run s)
  = Rename.sub_sep_runs (String r' "") in_run s.
Proof.
  intros Hr. revert in_run. induction s as [|c s IH]; intros in_run; [done|].
  cbn [Rename.sub_sep_runs]. destruct (Rename.is_name_sep c) eqn:Hc.
  - destruct in_run; [apply IH|].
    rewrite !str_app_cons, !str_app_nil_l. cbn [with_sep]. by rewrite Hr, IH.
  - cbn [with_sep]. by rewrite Hc, IH.
Qed.

Lemma with_sep_lower (r : ascii) (s : string) :
  Rename.is_name_sep r = true →
  with_sep r (Py.lower s) = Py.lower (with_sep r s).
Proof.
  intros Hr. induction s as [|c s IH]; [done|]. cbn.
  rewrite IH, is_name_sep_lower. destruct (Rename.is_name_sep c); [|done].
  by rewrite (lower_char_sep r r).
Qed.

Lemma rename_normalize_of_config (name : string) :
  Rename._normalize_name name = with_sep "_" (Config._normalize_name name).
Proof.
  unfold Rename._normalize_name, Config._normalize_name.
  by rewrite with_sep_lower, (with_sep_sub_sep_runs "-" "_").
Qed.

Lemma config_normalize_of_rename (name : string) :
  Config._normalize_name name = with_sep "-" (Rename._normalize_name name).
Proof.
  unfold Rename._normalize_name, Config._normalize_name.
  by rewrite with_sep_lower, (with_sep_sub_sep_runs "_" "-").
Qed.

(** Property X12.
    The normalization of the proxy (separators become a dash) and the
    normalization of the renaming (separators become an underscore)
    identify the same names: a name selects a rename rule of the proxy
    exactly when the renaming takes it for the name of the rule. *)
Theorem normalizations_agree (a b : string) :
  Config._normalize_name a = Config._normalize_name b
  ↔ Rename._normalize_name a = Rename._normalize_name b.
Proof.
  split; intros H.
  - by rewrite !rename_normalize_of_config, H.
  - by rewrite !config_normalize_of_rename, H.
Qed.

(** ** The rename rules of a configuration *)

(** Property X13.
    A name is a renamed package exactly when it is, up to
    normalization, one of the virtual packages of the configuration;
    the original name is then known. *)
Theorem renamed_package_iff_virtual (self : Config.ProxyConfig) (name : string) :
  (Config.is_renamed_package self name = true
   ↔ ∃ v, v ∈ Config.get_virtual_packages self
          ∧ Config._normalize_name v = Config._normalize_name name)
  ∧ (Config.is_renamed_package self name = true
     ↔ is_Some (Config.get_original_for_renamed self name)).
Proof.
  unfold Config.is_renamed_package, Config.get_original_for_renamed,
    Config.get_virtual_packages, Config.get_rename_rule.
  split.
  - destruct (List.find _ _) as [rule|] eqn:E; split; try done.
    + intros _. apply find_some in E as [Hin Hn%bool_decide_eq_true].
      exists (Config.new_name rule). split; [|done].
      apply list_elem_of_fmap. exists rule. split; [done|].
      by apply list_elem_of_In.
    + intros (v & (rule & -> & Hin)%list_elem_of_fmap & Hn).
      apply list_elem_of_In in Hin.
      pose proof (find_none _ _ E _ Hin) as Hf. cbn beta in Hf.
      by rewrite bool_decide_eq_true_2 in Hf.
  - destruct (List.find _ _); split; done.
Qed.

(** ** The rename argument of the command line *)

Lemma contains_char (c : ascii) (s : string) :
  Py.contains (String c "") s = has_char c s.
Proof.
  induction s as [|x s IH]; [done|]. cbn [Py.contains has_char].
  unfold Py.startswith. by rewrite prefix_cons, prefix_nil, andb_true_r, IH, Ascii.eqb_sym.
Qed.

Lemma find_from_app (c : ascii) (i : nat) (a b : string) :
  has_char c a = false →
  Py.find_from c i (a +:+ String c b) = Some (i + Py.len a).
Proof.
  revert i. induction a as [|x a IH]; intros i H.
  - rewrite str_app_nil_l. cbn. rewrite Ascii.eqb_refl. f_equal. lia.
  - cbn in H. apply orb_false_iff in H as [Hx Ha].
    rewrite str_app_cons. cbn. rewrite Hx, (IH _ Ha). f_equal. lia.
Qed.

Lemma find_from_None (c : ascii) (i : nat) (s : string) :
  has_char c s = false → Py.find_from c i s = None.
Proof.
  revert i. induction s as [|x s IH]; intros i H; [done|].
  cbn in H. apply orb_false_iff in H as [Hx Hs]. cbn. by rewrite Hx, IH.
Qed.

Lemma split1_app (c : ascii) (a b : string) :
  has_char c a = false → Py.split1 c (a +:+ String c b) = [a; b].
Proof.
  intros H. unfold Py.split1, Py.find. rewrite find_from_app by done.
  cbn [Nat.add]. by rewrite slice_to_app, slice_from_S_app.
Qed.

(** Property X14.
    An argument [o=n], where [o] holds no equals sign and [n] no colon,
    gives the rule of [o] and [n] without their surrounding white
    space and without version; an argument [o=n:v] gives the same rule
    with the version [v] without its surrounding white space, or
    without version when [v] is empty.  An argument without equals
    sign is refused. *)
Theorem parse_rename_arg_format (o n : string) :
  has_char "=" o = false → has_char ":" n = false →
  Config.parse_rename_arg (o +:+ "=" +:+ n)
  = Some (Config.Build_RenameRule (Py.strip o) (Py.strip n) None)
  ∧ (∀ v, Config.parse_rename_arg (o +:+ "=" +:+ n +:+ ":" +:+ v)
          = Some (Config.Build_RenameRule (Py.strip o) (Py.strip n)
                    (if bool_decide (v = "") then None else Some (Py.strip v))))
  ∧ (∀ arg, has_char "=" arg = false → Config.parse_rename_arg arg = None).
Proof.
  intros Ho Hn. unfold Config.parse_rename_arg. split; [|split].
  - rewrite contains_char, str_app_cons, str_app_nil_l.
    rewrite has_char_app. cbn [has_char]. rewrite Ascii.eqb_refl, orb_true_r.
    cbn [negb]. rewrite split1_app by done.
    by rewrite contains_char, Hn.
  - intros v. rewrite contains_char.
    rewrite !str_app_cons, !str_app_nil_l.
    rewrite has_char_app. cbn [has_char]. rewrite Ascii.eqb_refl, orb_true_r.
    cbn [negb]. rewrite split1_app by done.
    rewrite contains_char, has_char_app. cbn [has_char].
    rewrite Ascii.eqb_refl, orb_true_r. rewrite split1_app by done.
    cbn [default]. by repeat case_bool_decide.
  - intros arg Ha. by rewrite contains_char, Ha.
Qed.

Lemma parse_rename_arg_format_witness :
  Config.parse_rename_arg ("icechunk" +:+ "=" +:+ "icechunk_v1")
  = Some (Config.Build_RenameRule (Py.strip "icechunk") (Py.strip "icechunk_v1") None)
  ∧ (∀ v, Config.parse_rename_arg ("icechunk" +:+ "=" +:+ "icechunk_v1" +:+ ":" +:+ v)
          = Some (Config.Build_RenameRule (Py.strip "icechunk") (Py.strip "icechunk_v1")
                    (if bool_decide (v = "") then None else Some (Py.strip v))))
  ∧ (∀ arg, has_char "=" arg = false → Config.parse_rename_arg arg = None).
Proof. apply (parse_rename_arg_format "icechunk" "icechunk_v1"); reflexivity. Defined.
(** ** File names of the proxy *)

Lemma fold_name_length (s : string) : Py.len (Stream.fold_name s) = Py.len s.
Proof.
  unfold Stream.fold_name, Py.replace.
  induction s as [|c s IH]; [done|]. cbn [Py.lower Py.replace_go].
  unfold Py.startswith. rewrite prefix_cons, prefix_nil.
  destruct (Ascii.eqb "_" (Py.lower_char c)); cbn [andb];
    rewrite ?str_app_cons, ?str_app_nil_l; cbn [String.length Nat.sub]; by rewrite IH.
Qed.

Lemma has_char_first (c : ascii) (s : string) :
  has_char c s = true → ∃ a b, s = a +:+ String c b ∧ has_char c a = false.
Proof.
  induction s as [|x s IH]; [done|]. cbn.
  destruct (Ascii.eqb_spec x c) as [->|Hne].
  - intros _. by exists "", s.
  - cbn [orb]. intros (a & b & -> & Ha)%IH. exists (String x a), b.
    split; [done|]. cbn. rewrite Ha. by apply Ascii.eqb_neq in Hne as ->.
Qed.

Lemma join_dash_cons (x : string) (rest : string) :
  Py.join "-" (x :: Py.split "-" rest) = x +:+ "-" +:+ rest.
Proof.
  pose proof (split_not_nil "-" rest) as Hnn.
  pose proof (join_split "-" rest) as Hj.
  destruct (Py.split "-" rest) as [|h t]; [done|].
  by rewrite join_cons2, Hj.
Qed.

Lemma original_filename_of_prefix (rest original_name new_name : string) :
  has_char "-" new_name = false →
  Stream.original_filename_from_renamed (new_name +:+ "-" +:+ rest)
    original_name new_name
  = original_name +:+ "-" +:+ rest.
Proof.
  intros Hn. unfold Stream.original_filename_from_renamed.
  rewrite !str_app_cons, !str_app_nil_l, !split_app_sep by done. cbn [nth].
  rewrite !bool_decide_eq_true_2 by done. cbn [Stream.set_first].
  by rewrite !join_dash_cons, !str_app_cons, !str_app_nil_l.
Qed.

(** Property X15.
    On a file name whose first segment is the original name up to case
    and underscores, and for a new name without dash,
    [rewrite_wheel_filename] puts the new name in the place of the
    first segment and [original_filename_from_renamed] puts the
    original name back: the round trip gives the file name with its
    distribution spelt as the original name, the file name itself when
    it is spelt so. *)
Theorem filename_round_trip (p rest original_name new_name : string) :
  has_char "-" p = false → has_char "-" new_name = false →
  Stream.fold_name p = Stream.fold_name original_name →
  Stream.rewrite_wheel_filename (p +:+ "-" +:+ rest) original_name new_name
  = new_name +:+ "-" +:+ rest
  ∧ Stream.original_filename_from_renamed (new_name +:+ "-" +:+ rest)
      original_name new_name
    = original_name +:+ "-" +:+ rest.
Proof.
  intros Hp Hn Hfold. split; [|by apply original_filename_of_prefix].
  unfold Stream.rewrite_wheel_filename.
  rewrite !str_app_cons, !str_app_nil_l, !split_app_sep by done. cbn [nth].
  rewrite !bool_decide_eq_true_2 by done. cbn [Stream.set_first].
  by rewrite !join_dash_cons, !str_app_cons, !str_app_nil_l.
Qed.

Lemma filename_round_trip_witness :
  Stream.rewrite_wheel_filename ("Demo" +:+ "-" +:+ "1.0-py3-none-any.whl")
    "demo" "demo_v1"
  = "demo_v1" +:+ "-" +:+ "1.0-py3-none-any.whl"
  ∧ Stream.original_filename_from_renamed
      ("demo_v1" +:+ "-" +:+ "1.0-py3-none-any.whl") "demo" "demo_v1"
    = "demo" +:+ "-" +:+ "1.0-py3-none-any.whl".
Proof.
  apply (filename_round_trip "Demo" "1.0-py3-none-any.whl" "demo" "demo_v1");
    reflexivity.
Defined.

(** Property X16.
    A new name that holds a dash is not recognised in a file name that
    starts with it: [original_filename_from_renamed] compares the new
    name with the text before the first dash, and returns the file
    name as it is. *)
Theorem dashed_new_name_not_mapped_back (rest original_name new_name : string) :
  has_char "-" new_name = true →
  Stream.original_filename_from_renamed (new_name +:+ "-" +:+ rest)
    original_name new_name
  = new_name +:+ "-" +:+ rest.
Proof.
  intros (a & b & Hn & Ha)%has_char_first.
  unfold Stream.original_filename_from_renamed.
  rewrite bool_decide_eq_false_2; [apply join_split|].
  rewrite Hn at 1. rewrite str_app_assoc, str_app_cons, split_app_sep by done.
  cbn [nth]. intros E. apply (f_equal Py.len) in E.
  rewrite !fold_name_length, Hn, str_len_app in E. cbn in E. lia.
Qed.

Lemma dashed_new_name_not_mapped_back_witness :
  Stream.original_filename_from_renamed
    ("demo-v1" +:+ "-" +:+ "1.0-py3-none-any.whl") "demo" "demo-v1"
  = "demo-v1" +:+ "-" +:+ "1.0-py3-none-any.whl".
Proof.
  apply (dashed_new_name_not_mapped_back "1.0-py3-none-any.whl" "demo" "demo-v1").
  reflexivity.
Defined.

(** ** From the listing to the download *)

Lemma replace1_prefix (old new rest : string) :
  old ≠ "" → Py.replace1 old new (old +:+ rest) = new +:+ rest.
Proof.
  intros Hne. destruct (old +:+ rest) as [|c s] eqn:E.
  { destruct old; [done|]. by rewrite str_app_cons in E. }
  cbn [Py.replace1]. unfold Py.startswith.
  by rewrite <-E, prefix_app, slice_from_app.
Qed.

Lemma listed_filename_prefix (rule : Config.RenameRule) (rest : string) :
  Html.listed_filename (Some rule) (Config.original rule +:+ "-" +:+ rest)
  = Config.new_name rule +:+ "-" +:+ rest.
Proof.
  unfold Html.listed_filename.
  rewrite <-(str_app_assoc (Config.original rule)), replace1_prefix.
  - by rewrite str_app_assoc.
  - destruct (Config.original rule); [done|]. by rewrite str_app_cons.
Qed.

Lemma find_package_url_elem (packages : list Listing.package) (pkg : Listing.package) :
  pkg ∈ packages →
  ∃ pkg', pkg' ∈ packages ∧ Listing.filename pkg' = Listing.filename pkg
          ∧ Upstream.find_package_url packages (Listing.filename pkg)
            = Some (Listing.url pkg').
Proof.
  intros Hin. unfold Upstream.find_package_url.
  destruct (List.find _ _) as [pkg'|] eqn:E.
  - apply find_some in E as [Hin' Hf%bool_decide_eq_true].
    exists pkg'. split; [by apply list_elem_of_In|done].
  - apply list_elem_of_In in Hin. pose proof (find_none _ _ E _ Hin) as Hf.
    cbn beta in Hf. by rewrite bool_decide_eq_true_2 in Hf.
Qed.

Section proxy.
Context {S : Type}.
Variable config : Config.ProxyConfig.
Variable http_get : string → Upstream.get_outcome.
Variable from_html : string → string → string → result (list Upstream.page_package).
Variable parse_specifier_set : string → option S.
Variable specifier_set_truthy : S → bool.
Variable version_in : string → S → option bool.
Variable download : string → result (list byte).
Variable unzip : list byte → option Zip.archive.

Local Abbreviation listing :=
  (App.get_project_page config http_get from_html S parse_specifier_set
     specifier_set_truthy version_in).
Local Abbreviation download_wheel :=
  (App.download_wheel config true http_get from_html S parse_specifier_set
     specifier_set_truthy version_in download unzip).

(** Property X17.
    Every file name shown on the page of a virtual project can be
    downloaded: when the new name of the rule holds no dash and the
    file name of a listed package starts with the original name and a
    dash, the download of the rewritten file name fetches the wheel of
    a package of the listing with that very file name, renames it in
    memory to the new name, and answers with the result under the
    rewritten file name. *)
Theorem listed_wheel_is_served (project rest : string) (rule : Config.RenameRule)
    (packages : list Listing.package) (pkg : Listing.package) :
  Config.get_rename_rule config project = Some rule →
  has_char "-" (Config.new_name rule) = false →
  listing (Config.original rule) (Some rule) = Ok packages →
  pkg ∈ packages →
  Listing.filename pkg = Config.original rule +:+ "-" +:+ rest →
  ∃ pkg', pkg' ∈ packages ∧ Listing.filename pkg' = Listing.filename pkg
    ∧ download_wheel project (Html.listed_filename (Some rule) (Listing.filename pkg))
      = if bool_decide (Listing.url pkg' = "")
        then Ok (App.NotFound ("Package not found: " +:+ Listing.filename pkg))
        else
          renamed ←! Stream.stream_and_rename_wheel download unzip
                       (Listing.url pkg') (Config.new_name rule);
          Ok (App.Attachment renamed
                (Html.listed_filename (Some rule) (Listing.filename pkg))).
Proof.
  intros Hrule Hn Hlist Hin Hname.
  destruct (find_package_url_elem packages pkg Hin) as (pkg' & Hin' & Hf' & Hfind).
  exists pkg'. split; [done|]. split; [done|].
  unfold App.download_wheel. cbn [negb]. rewrite Hrule, Hlist. cbn [bind].
  rewrite Hname, listed_filename_prefix.
  assert (Stream.original_filename_from_renamed
            (Config.new_name rule +:+ "-" +:+ rest)
            (Config.original rule) (Config.new_name rule)
          = Listing.filename pkg) as ->.
  { rewrite Hname. by apply original_filename_of_prefix. }
  rewrite Hfind. unfold Listing.truthy. cbn [default].
  destruct (decide (Listing.url pkg' = "")) as [Hu|Hu].
  - rewrite (bool_decide_eq_false_2 (Listing.url pkg' ≠ "")) by (by intros []).
    rewrite (bool_decide_eq_true_2 (Listing.url pkg' = "")) by done.
    cbn [negb]. by rewrite Hname.
  - rewrite (bool_decide_eq_true_2 (Listing.url pkg' ≠ "")) by done.
    by rewrite (bool_decide_eq_false_2 (Listing.url pkg' = "")) by done.
Qed.

End proxy.

Lemma listed_wheel_is_served_witness :
  ∃ pkg', pkg' ∈ [demo_package]
    ∧ Listing.filename pkg' = Listing.filename demo_package
    ∧ App.download_wheel demo_config true two_upstreams_get two_upstreams_html unit
        (λ _, Some tt) (λ _, true) (λ _ _, Some true) (λ _, Ok demo_bytes) demo_unzip
        "demo-v1" (Html.listed_filename (Some demo_rule) (Listing.filename demo_package))
      = if bool_decide (Listing.url pkg' = "")
        then Ok (App.NotFound ("Package not found: " +:+ Listing.filename demo_package))
        else
          renamed ←! Stream.stream_and_rename_wheel (λ _, Ok demo_bytes) demo_unzip
                       (Listing.url pkg') (Config.new_name demo_rule);
          Ok (App.Attachment renamed
                (Html.listed_filename (Some demo_rule) (Listing.filename demo_package))).
Proof.
  apply (listed_wheel_is_served demo_config two_upstreams_get two_upstreams_html
           (λ _, Some tt) (λ _, true) (λ _ _, Some true) (λ _, Ok demo_bytes)
           demo_unzip "demo-v1" "1.0.0-py3-none-any.whl" demo_rule [demo_package]
           demo_package).
  - reflexivity.
  - reflexivity.
  - reflexivity.
  - apply list_elem_of_here.
  - reflexivity.
Defined.
(** ** What the listing of a project holds *)

Section listing_contents.
Context {S : Type}.
Variable http_get : string → Upstream.get_outcome.
Variable from_html : string → string → string → result (list Upstream.page_package).
Variable parse_specifier_set : string → option S.
Variable specifier_set_truthy : S → bool.
Variable version_in : string → S → option bool.

Local Abbreviation get_project_page :=
  (Upstream.get_project_page http_get from_html S parse_specifier_set
     specifier_set_truthy version_in).
Local Abbreviation packages_of_page :=
  (Upstream.packages_of_page from_html S parse_specifier_set
     specifier_set_truthy version_in).
Local Abbreviation keep_package :=
  (Upstream.keep_package S specifier_set_truthy version_in).

Lemma keep_package_Some (version_spec : option S) (pp : Upstream.page_package)
    (p : Listing.package) :
  keep_package version_spec pp = Some p →
  Upstream.pp_package_type pp = Some "wheel"
  ∧ Listing.filename p = Upstream.pp_filename pp
  ∧ Listing.url p = Upstream.pp_url pp
  ∧ Listing.requires_python p = Upstream.pp_requires_python pp
  ∧ (∀ spec v, version_spec = Some spec → specifier_set_truthy spec = true →
       Upstream.pp_version pp = Some v → v ≠ "" → version_in v spec = Some true).
Proof.
  unfold Upstream.keep_package. case_bool_decide as Hw; [done|].
  destruct (match version_spec with Some _ => _ | None => _ end) eqn:Hex; [done|].
  intros [= <-]. cbn. repeat split; try done.
  intros spec v -> Ht Hv Hne. rewrite Hv, Ht in Hex.
  rewrite bool_decide_eq_true_2 in Hex by done. cbn [andb] in Hex.
  destruct (version_in v spec) as [[]|]; done.
Qed.

Lemma get_project_page_Ok (upstreams : list string) (project : string)
    (rule : option Config.RenameRule) (pkgs : list Listing.package) :
  get_project_page true upstreams project rule = Ok pkgs →
  pkgs = [] ∨ ∃ u text, u ∈ upstreams
                        ∧ upstream_answer http_get project u = Some text
                        ∧ packages_of_page project u text rule = Ok pkgs.
Proof.
  induction upstreams as [|u upstreams IH]; [intros [= <-]; by left|].
  destruct (upstream_answer http_get project u) as [text|] eqn:Hu.
  - rewrite (get_project_page_answer _ _ _ _ _ u upstreams project text rule Hu).
    intros H. right. exists u, text. split; [apply list_elem_of_here|done].
  - rewrite get_project_page_skip by done.
    intros [->|(u' & text & Hin & Ha & Hp)]%IH; [by left|].
    right. exists u', text. split; [by apply list_elem_of_further|done].
Qed.

(** Property X18.
    Every package of a listing comes from the page of an upstream of
    the configuration that answered with a success status; it is a
    wheel of that page, with the file name, the URL and the Python
    requirement of the page.  Under a rule with a version specifier,
    the specifier has been read, and a listed package that has a
    version lies within it. *)
Theorem listing_holds_wheels_in_range (upstreams : list string) (project : string)
    (rule : option Config.RenameRule) (pkgs : list Listing.package)
    (p : Listing.package) :
  get_project_page true upstreams project rule = Ok pkgs →
  p ∈ pkgs →
  ∃ u text page pp,
    u ∈ upstreams
    ∧ upstream_answer http_get project u = Some text
    ∧ from_html project text u = Ok page
    ∧ pp ∈ page
    ∧ Upstream.pp_package_type pp = Some "wheel"
    ∧ Listing.filename p = Upstream.pp_filename pp
    ∧ Listing.url p = Upstream.pp_url pp
    ∧ Listing.requires_python p = Upstream.pp_requires_python pp
    ∧ (∀ r s, rule = Some r → Config.version_spec r = Some s → s ≠ "" →
         ∃ spec, parse_specifier_set s = Some spec
                 ∧ (specifier_set_truthy spec = true →
                    ∀ v, Upstream.pp_version pp = Some v → v ≠ "" →
                         version_in v spec = Some true)).
Proof.
  intros [->|(u & text & Hin & Ha & Hp)]%get_project_page_Ok Hp'.
  { by apply elem_of_nil in Hp'. }
  unfold Upstream.packages_of_page in Hp.
  destruct (from_html project text u) as [page|] eqn:Hpage; [|done].
  cbn [bind] in Hp.
  destruct (match rule with Some _ => _ | None => _ end) as [version_spec|] eqn:Hvs;
    [|done].
  cbn [bind] in Hp. injection Hp as <-.
  apply list_elem_of_omap in Hp' as (pp & Hpp & Hk).
  apply keep_package_Some in Hk as (Hw & Hf & Hurl & Hrp & Hv).
  exists u, text, page, pp. repeat (split; [done|]).
  intros r s -> Hs Hne. rewrite Hs in Hvs. cbn [Listing.truthy default] in Hvs.
  rewrite bool_decide_eq_true_2 in Hvs by done.
  unfold id in Hvs. destruct (parse_specifier_set s) as [spec|]; [|done].
  injection Hvs as <-. exists spec. split; [done|]. intros Ht v. by apply Hv.
Qed.

End listing_contents.

Lemma listing_holds_wheels_in_range_witness :
  ∃ u text page pp,
    u ∈ ["https://second.example/simple/"]
    ∧ upstream_answer two_upstreams_get "demo" u = Some text
    ∧ two_upstreams_html "demo" text u = Ok page
    ∧ pp ∈ page
    ∧ Upstream.pp_package_type pp = Some "wheel"
    ∧ Listing.filename demo_package = Upstream.pp_filename pp
    ∧ Listing.url demo_package = Upstream.pp_url pp
    ∧ Listing.requires_python demo_package = Upstream.pp_requires_python pp
    ∧ (∀ r s, Some demo_rule = Some r → Config.version_spec r = Some s → s ≠ "" →
         ∃ spec : unit, (λ _ : string, Some tt) s = Some spec
                 ∧ ((λ _ : unit, true) spec = true →
                    ∀ v, Upstream.pp_version pp = Some v → v ≠ "" →
                         (λ (_ : string) (_ : unit), Some true) v spec = Some true)).
Proof.
  apply (listing_holds_wheels_in_range two_upstreams_get two_upstreams_html
           (λ _, Some tt) (λ _, true) (λ _ _, Some true)
           ["https://second.example/simple/"] "demo" (Some demo_rule)
           [demo_package] demo_package).
  - reflexivity.
  - apply list_elem_of_here.
Defined.
(** ** The tags of a wheel filename *)

Lemma drop_last_whl (body : string) : Py.drop_last 4 (body +:+ ".whl") = body.
Proof.
  unfold Py.drop_last. rewrite str_len_app. cbn [String.length].
  replace (Py.len body + 4 - 4) with (Py.len body) by lia.
  apply slice_to_app.
Qed.

(** Property X19.
    The tags read from a filename of the grammar are the triples of
    its Python tag, its ABI tag and each of the dot-separated parts of
    its platform tag, in lower case: the platform tag is expanded, the
    Python and ABI tags are taken as they are. *)
Theorem wheel_tags_of_filename (d v b py abi plat : string) :
  has_char "-" d = false → has_char "-" v = false → has_char "-" b = false →
  has_char "-" py = false → has_char "-" abi = false → has_char "-" plat = false →
  build_ok b = true →
  Download.parse_wheel_tags (wheel_filename d v b py abi plat)
  = Ok (Download.tag py abi <$> Py.split "." plat).
Proof.
  intros Hd Hv Hb Hp Ha Hl Hbuild.
  unfold wheel_filename, Download.parse_wheel_tags.
  rewrite <-!str_app_assoc, drop_last_whl, !str_app_assoc.
  case_bool_decide as Hbe.
  - subst b. rewrite !str_app_cons, !str_app_nil_l.
    rewrite (split_app_sep _ d), (split_app_sep _ v), (split_app_sep _ py),
      (split_app_sep _ abi), (split_no_sep _ plat) by done.
    done.
  - rewrite !str_app_assoc, !str_app_cons, !str_app_nil_l.
    rewrite (split_app_sep _ d), (split_app_sep _ v), (split_app_sep _ b),
      (split_app_sep _ py), (split_app_sep _ abi), (split_no_sep _ plat) by done.
    destruct b as [|x b]; [done|]. cbn in Hbuild. cbn. by rewrite Hbuild.
Qed.

Lemma wheel_tags_of_filename_witness :
  Download.parse_wheel_tags
    (wheel_filename "demo" "1.0" "" "cp311" "cp311"
       "manylinux_2_17_x86_64.manylinux2014_x86_64")
  = Ok (Download.tag "cp311" "cp311"
          <$> Py.split "." "manylinux_2_17_x86_64.manylinux2014_x86_64").
Proof.
  apply (wheel_tags_of_filename "demo" "1.0" "" "cp311" "cp311"
           "manylinux_2_17_x86_64.manylinux2014_x86_64"); reflexivity.
Defined.

(** ** The report of [inspect_wheel] *)

Lemma is_extension_existsb (name : string) :
  existsb (λ ext, Py.endswith name ext) [".so"; ".pyd"; ".dylib"] = is_extension name.
Proof. unfold is_extension. cbn. by rewrite orb_false_r, orb_assoc. Qed.

Lemma inspect_names (names : list string) (st : Rename.inspect_state) :
  inspect_inv st →
  let st' := fold_left Rename.inspect_name names st in
  st'.1.1 = st.1.1 ++ names
  ∧ Rename.ext_path <$> st'.1.2
    = (Rename.ext_path <$> st.1.2) ++ filter (λ name, is_extension name = true) names
  ∧ inspect_inv st'.
Proof.
  revert st. induction names as [|name names IH]; intros st Hinv; cbn zeta.
  { by rewrite !app_nil_r. }
  cbn [fold_left]. destruct (IH (Rename.inspect_name st name)) as (Hf & He & Hi).
  - unfold Rename.inspect_name. rewrite is_extension_existsb.
    destruct (is_extension name); [|done]. cbn zeta.
    destruct Hinv as [Hall Hflag]. split; cbn [fst snd].
    + apply Forall_app. split; [done|]. by repeat constructor.
    + destruct (Py.startswith _ "_") eqn:Hu.
      * split; [|done]. intros _.
        eexists (Rename.Extension name _ _).
        split; [apply elem_of_app; right; apply list_elem_of_here|exact Hu].
      * rewrite Hflag. split.
        -- intros (e & Hin & Hs). exists e. split; [|done].
           apply elem_of_app. by left.
        -- intros (e & [Hin|Hin%list_elem_of_singleton]%elem_of_app & Hs).
           ++ by exists e.
           ++ subst e. cbn [Rename.ext_module_name] in Hs. congruence.
  - cbn zeta in Hf, He. rewrite Hf, He. split; [|split; [|done]].
    + unfold Rename.inspect_name. rewrite is_extension_existsb.
      destruct (is_extension name); cbn [fst snd]; by rewrite <-app_assoc.
    + unfold Rename.inspect_name. rewrite is_extension_existsb, filter_cons.
      destruct (is_extension name) eqn:Hx; cbn [fst snd].
      * rewrite decide_True by done. by rewrite fmap_app, <-app_assoc.
      * by rewrite decide_False by done.
Qed.

(** Property X20.
    The report of a wheel lists every name of the archive, in order;
    its extensions are the names that end in [.so], [.pyd] or
    [.dylib], in order, each with a module name that holds no dot and
    with the flag that tells whether this name starts with an
    underscore; the flag of the report is set exactly when one of the
    extensions has such a name. *)
Theorem inspect_wheel_report path_exists open_zip (wheel_path : string)
    (info : Rename.wheel_info) :
  Rename.inspect_wheel path_exists open_zip wheel_path = Ok info →
  ∃ zf, open_zip wheel_path = Some zf
    ∧ Rename.info_files info = Zip.namelist zf
    ∧ Rename.ext_path <$> Rename.info_extensions info
      = filter (λ name, is_extension name = true) (Zip.namelist zf)
    ∧ Forall (λ e, has_char "." (Rename.ext_module_name e) = false
                   ∧ Rename.ext_has_underscore_prefix e
                     = Py.str_of_bool (Py.startswith (Rename.ext_module_name e) "_"))
        (Rename.info_extensions info)
    ∧ (Rename.info_has_underscore_prefix_extension info = true
       ↔ ∃ e, e ∈ Rename.info_extensions info
              ∧ Py.startswith (Rename.ext_module_name e) "_" = true).
Proof.
  unfold Rename.inspect_wheel.
  destruct (negb (path_exists wheel_path)); [done|].
  destruct (Rename._parse_wheel_filename _) as [c|]; [|done]. cbn [bind].
  destruct (open_zip wheel_path) as [zf|]; [|done]. intros [= <-].
  exists zf. split; [done|]. cbn.
  destruct (inspect_names (Zip.namelist zf) ([], [], false)) as (Hf & He & Hall & Hflag).
  { split; [constructor|]. split; [done|]. by intros (e & ?%elem_of_nil & _). }
  cbn zeta in Hf, He. split; [done|]. split; [done|]. split; [|done].
  eapply Forall_impl; [exact Hall|]. intros e [Hm Hu]. split; [|done].
  rewrite Hm. apply has_char_nth, split_parts_no_sep.
Qed.

Lemma inspect_wheel_report_witness :
  ∃ zf, Some ext_wheel = Some zf
    ∧ Rename.info_files ext_report = Zip.namelist zf
    ∧ Rename.ext_path <$> Rename.info_extensions ext_report
      = filter (λ name, is_extension name = true) (Zip.namelist zf)
    ∧ Forall (λ e, has_char "." (Rename.ext_module_name e) = false
                   ∧ Rename.ext_has_underscore_prefix e
                     = Py.str_of_bool (Py.startswith (Rename.ext_module_name e) "_"))
        (Rename.info_extensions ext_report)
    ∧ (Rename.info_has_underscore_prefix_extension ext_report = true
       ↔ ∃ e, e ∈ Rename.info_extensions ext_report
              ∧ Py.startswith (Rename.ext_module_name e) "_" = true).
Proof.
  apply (inspect_wheel_report (λ _, true) (λ _, Some ext_wheel)
           "dist/demo-1.0.0-cp311-cp311-linux_x86_64.whl" ext_report).
  vm_compute. reflexivity.
Defined.

(** ** The root page *)

Lemma sorted_set_sorted (projects : list string) :
  Sorted String.le (Html.sorted_set projects).
Proof. apply Sorted_merge_sort. apply _. Qed.

Lemma sorted_set_elem (projects : list string) (p : string) :
  p ∈ Html.sorted_set projects ↔ p ∈ projects.
Proof.
  unfold Html.sorted_set. by rewrite merge_sort_Permutation, elem_of_remove_dups.
Qed.

Lemma sorted_set_NoDup (projects : list string) : NoDup (Html.sorted_set projects).
Proof.
  unfold Html.sorted_set. rewrite merge_sort_Permutation. apply NoDup_remove_dups.
Qed.

Lemma sorted_set_idem (projects : list string) :
  Html.sorted_set (Html.sorted_set projects) = Html.sorted_set projects.
Proof.
  apply (Sorted_unique String.le); [apply sorted_set_sorted..|].
  apply NoDup_Permutation; [apply sorted_set_NoDup..|].
  intros p. by rewrite !sorted_set_elem.
Qed.

(** Property X21.
    The root page lists the virtual packages of the configuration:
    each name once, in strictly increasing order; the sorting of the
    handler before the sorting of the page changes nothing. *)
Theorem root_page_lists_virtual_packages (config : Config.ProxyConfig) :
  App.simple_index config
  = App.HtmlPage (Html.generate_root_index (Config.get_virtual_packages config))
  ∧ StronglySorted (strict String.le)
      (Html.sorted_set (Config.get_virtual_packages config))
  ∧ (∀ rule, rule ∈ Config.renames config →
       Config.new_name rule ∈ Html.sorted_set (Config.get_virtual_packages config)).
Proof.
  split; [|split].
  - unfold App.simple_index, Html.generate_root_index. cbv zeta.
    fold (Html.sorted_set (Config.get_virtual_packages config)).
    by rewrite sorted_set_idem.
  - apply (StronglySorted_strict String.le); [|apply sorted_set_NoDup].
    apply Sorted_StronglySorted; [apply _|]. apply sorted_set_sorted.
  - intros rule Hin. apply sorted_set_elem.
    unfold Config.get_virtual_packages. apply list_elem_of_fmap. by exists rule.
Qed.
(** ** Renaming back *)

Lemma new_file_name_dist_info_itself (n : Rename.names) :
  Rename.new_file_name n (Rename.old_dist_info n) = Rename.new_dist_info n.
Proof.
  unfold Rename.new_file_name, Rename.new_file_name_of.
  assert (Py.startswith (Rename.old_dist_info n) (Rename.old_name_normalized n +:+ "/")
          = false) as ->.
  { unfold Rename.old_dist_info. rewrite ?str_app_assoc. apply dash_not_slash. }
  rewrite bool_decide_eq_false_2; cycle 1.
  { unfold Rename.old_dist_info. rewrite ?str_app_assoc. apply app_dash_neq. }
  cbn [orb]. rewrite (bool_decide_eq_true_2 (_ = _)) by done.
  by rewrite orb_true_r, slice_from_all, str_app_nil_r.
Qed.

Lemma new_file_name_data_dir_itself (n : Rename.names) :
  Rename.new_file_name n (Rename.old_data_dir n) = Rename.new_data_dir n.
Proof.
  unfold Rename.new_file_name, Rename.new_file_name_of.
  assert (Py.startswith (Rename.old_data_dir n) (Rename.old_name_normalized n +:+ "/")
          = false) as ->.
  { unfold Rename.old_data_dir. rewrite ?str_app_assoc. apply dash_not_slash. }
  rewrite bool_decide_eq_false_2; cycle 1.
  { unfold Rename.old_data_dir. rewrite ?str_app_assoc. apply app_dash_neq. }
  cbn [orb].
  assert (Py.startswith (Rename.old_data_dir n) (Rename.old_dist_info n +:+ "/")
          = false) as ->.
  { unfold Rename.old_data_dir, Rename.old_dist_info.
    rewrite <-(str_app_nil_r ".data"), ?str_app_assoc. apply data_not_dist_info. }
  rewrite bool_decide_eq_false_2; cycle 1.
  { unfold Rename.old_data_dir, Rename.old_dist_info.
    rewrite <-(str_app_nil_r ".data"), <-(str_app_nil_r ".dist-info"), ?str_app_assoc.
    apply data_neq_dist_info. }
  cbn [orb]. rewrite (bool_decide_eq_true_2 (_ = _)) by done.
  by rewrite orb_true_r, slice_from_all, str_app_nil_r.
Qed.

(** Property X22.
    A path that a rename moves is moved back by the reverse rename:
    for every path, either the rename leaves it as it is, or renaming
    its new path with the old and the new name exchanged gives the
    path again. *)
Theorem moved_paths_move_back (n : Rename.names) (name : string) :
  Rename.new_file_name n name = name
  ∨ Rename.new_file_name (reverse_names n) (Rename.new_file_name n name) = name.
Proof.
  destruct (new_file_name_cases n name)
    as [[? _]|(rest & Hb & [[-> ->]|[[-> ->]|[-> ->]]])]; [by left|right..].
  - by apply (new_file_name_root (reverse_names n)).
  - apply is_below_inv in Hb as [->|[r ->]].
    + rewrite !str_app_nil_r. apply (new_file_name_dist_info_itself (reverse_names n)).
    + apply (new_file_name_dist_info (reverse_names n)).
  - apply is_below_inv in Hb as [->|[r ->]].
    + rewrite !str_app_nil_r. apply (new_file_name_data_dir_itself (reverse_names n)).
    + apply (new_file_name_data_dir (reverse_names n)).
Qed.
(** ** The best wheel *)

Lemma key_le_good (x y : Download.candidate) :
  Download.key_lt (Download.sort_key y) (Download.sort_key x) = false
  ↔ at_least_as_good x.1.2 x.2 y.1.2 y.2.
Proof.
  unfold Download.key_lt, Download.sort_key, at_least_as_good.
  destruct x as [[px [[a1 a2] a3]] p], y as [[py [[b1 b2] b3]] q]. cbn [fst snd].
  rewrite !orb_false_iff, !andb_false_iff, !orb_false_iff, !andb_false_iff,
    !orb_false_iff, !andb_false_iff, !Z.ltb_ge, !Z.eqb_neq.
  lia.
Qed.

Lemma at_least_as_good_refl (v : Z * Z * Z) (p : nat) : at_least_as_good v p v p.
Proof. unfold at_least_as_good. lia. Qed.

Lemma at_least_as_good_trans (v1 v2 v3 : Z * Z * Z) (p1 p2 p3 : nat) :
  at_least_as_good v1 p1 v2 p2 → at_least_as_good v2 p2 v3 p3 →
  at_least_as_good v1 p1 v3 p3.
Proof. unfold at_least_as_good. lia. Qed.

Lemma at_least_as_good_total (v1 v2 : Z * Z * Z) (p1 p2 : nat) :
  at_least_as_good v1 p1 v2 p2 ∨ at_least_as_good v2 p2 v1 p1.
Proof. unfold at_least_as_good. lia. Qed.

Lemma insert_sorted_elem (x c : Download.candidate) (l : list Download.candidate) :
  c ∈ Download.insert_sorted x l ↔ c = x ∨ c ∈ l.
Proof.
  induction l as [|y l IH]; cbn.
  - rewrite list_elem_of_singleton, elem_of_nil. tauto.
  - destruct (Download.key_lt _ _); rewrite !elem_of_cons, ?IH; tauto.
Qed.

Lemma sort_by_key_elem (c : Download.candidate) (l : list Download.candidate) :
  c ∈ Download.sort_by_key l ↔ c ∈ l.
Proof.
  induction l as [|x l IH]; [done|]. cbn.
  by rewrite insert_sorted_elem, elem_of_cons, IH.
Qed.

(** The first element of the sorted list is at least as good as every
    element. *)
Lemma sort_by_key_first (l : list Download.candidate) (c : Download.candidate)
    (rest : list Download.candidate) :
  Download.sort_by_key l = c :: rest →
  ∀ c', c' ∈ l → at_least_as_good c.1.2 c.2 c'.1.2 c'.2.
Proof.
  revert c rest. induction l as [|x l IH]; intros c rest; [done|].
  cbn [Download.sort_by_key foldr]. fold (Download.sort_by_key l).
  destruct (Download.sort_by_key l) as [|y s] eqn:Hs.
  - assert (l = []) as ->.
    { destruct l as [|z l]; [done|].
      assert (z ∈ Download.sort_by_key (z :: l)) as Hz
        by (apply sort_by_key_elem, list_elem_of_here).
      rewrite Hs in Hz. by apply elem_of_nil in Hz. }
    cbn. intros [= <- <-] c' ->%list_elem_of_singleton.
    apply at_least_as_good_refl.
  - cbn [Download.insert_sorted].
    destruct (Download.key_lt _ _) eqn:Hlt.
    + intros [= <- <-] c' [->|Hc']%elem_of_cons; [|by apply (IH y s)].
      destruct (at_least_as_good_total y.1.2 x.1.2 y.2 x.2) as [?|Hxy]; [done|].
      apply key_le_good in Hxy. congruence.
    + intros [= <- <-] c' [->|Hc']%elem_of_cons; [apply at_least_as_good_refl|].
      apply key_le_good in Hlt.
      eapply at_least_as_good_trans; [exact Hlt|]. by apply (IH y s).
Qed.

Section best_wheel.
Variable sys_tags : list Download.Tag.
Variable parse_version : string → option (Z * Z * Z).

Lemma collect_Returns (tags : list Download.Tag)
    (packages : list Upstream.page_package) (acc l : list Download.candidate) :
  Download.collect parse_version (Download.tag_priority tags) packages acc = Download.Returns l →
  ∃ found,
    l = acc ++ found
    ∧ (∀ c, c ∈ found →
         c.1.1 ∈ packages ∧ Upstream.pp_package_type c.1.1 = Some "wheel"
         ∧ wheel_version parse_version c.1.1 = Some c.1.2
         ∧ wheel_priority tags c.1.1 = Some c.2)
    ∧ (∀ pkg, pkg ∈ packages → Upstream.pp_package_type pkg = Some "wheel" →
         ∀ p, wheel_priority tags pkg = Some p →
         ∃ v, wheel_version parse_version pkg = Some v ∧ (pkg, v, p) ∈ found).
Proof.
  revert acc. induction packages as [|pkg packages IH]; intros acc.
  { intros [= <-]. exists []. rewrite app_nil_r. split; [done|].
    split; [by intros c ?%elem_of_nil|by intros pkg ?%elem_of_nil]. }
  cbn [Download.collect]. unfold wheel_priority, wheel_version in *.
  case_bool_decide as Hw.
  { intros (found & -> & Hf & Hall)%IH. exists found. split; [done|]. split.
    - intros c Hc. destruct (Hf c Hc) as (? & ? & ? & ?).
      split; [by apply list_elem_of_further|done].
    - intros pkg' [->|Hin]%elem_of_cons Hw'; [done|]. by apply Hall. }
  destruct (Download.parse_wheel_tags (Upstream.pp_filename pkg)) as [wheel_tags|] eqn:Ht;
    [|done].
  destruct (Download.best_priority _ wheel_tags) as [priority|] eqn:Hp.
  - destruct (if Listing.truthy _ then _ else _) as [version|] eqn:Hv; [|done].
    intros (found & -> & Hf & Hall)%IH.
    exists ((pkg, version, priority) :: found).
    split; [by rewrite <-app_assoc|]. split.
    + intros c [->|Hc]%elem_of_cons.
      * cbn [fst snd]. rewrite Ht. split; [apply list_elem_of_here|]. split; [|done].
        by destruct (decide (Upstream.pp_package_type pkg = Some "wheel")).
      * destruct (Hf c Hc) as (? & ? & ? & ?).
        split; [by apply list_elem_of_further|done].
    + intros pkg' [->|Hin]%elem_of_cons Hw' p.
      * rewrite Ht, Hp. intros [= <-]. exists version. split; [done|].
        apply list_elem_of_here.
      * intros Hp'. destruct (Hall pkg' Hin Hw' p Hp') as (v & ? & ?).
        exists v. split; [done|]. by apply list_elem_of_further.
  - intros (found & -> & Hf & Hall)%IH. exists found. split; [done|]. split.
    + intros c Hc. destruct (Hf c Hc) as (? & ? & ? & ?).
      split; [by apply list_elem_of_further|done].
    + intros pkg' [->|Hin]%elem_of_cons Hw' p; [|by apply Hall].
      by rewrite Ht, Hp.
Qed.

(** Property X23.
    The package that [best_wheel] returns is a wheel of the list that
    has a compatible tag, and it is at least as good as every wheel of
    the list that has one: no such wheel has greater version numbers,
    or the same version numbers and a smaller priority.  When
    [best_wheel] returns nothing, no wheel of the list has a
    compatible tag. *)
Theorem best_wheel_is_best (packages : list Upstream.page_package)
    (compatible_tags : option (list Download.Tag)) :
  let tags := default sys_tags compatible_tags in
  (∀ pkg,
     Download.best_wheel sys_tags parse_version packages compatible_tags
     = Download.Returns (Some pkg) →
     ∃ v p,
       pkg ∈ packages ∧ Upstream.pp_package_type pkg = Some "wheel"
       ∧ wheel_version parse_version pkg = Some v
       ∧ wheel_priority tags pkg = Some p
       ∧ ∀ pkg' p', pkg' ∈ packages → Upstream.pp_package_type pkg' = Some "wheel" →
           wheel_priority tags pkg' = Some p' →
           ∃ v', wheel_version parse_version pkg' = Some v'
                 ∧ at_least_as_good v p v' p')
  ∧ (Download.best_wheel sys_tags parse_version packages compatible_tags
     = Download.Returns None →
     ∀ pkg, pkg ∈ packages → Upstream.pp_package_type pkg = Some "wheel" →
       wheel_priority tags pkg = None).
Proof.
  cbn zeta. unfold Download.best_wheel. cbv zeta.
  destruct (Download.collect _ _ _ _) as [l| |] eqn:Hc; [|by split..].
  apply collect_Returns in Hc as (found & -> & Hf & Hall). cbn [app]. split.
  - intros pkg. destruct found as [|c0 found0] eqn:Hfound; [done|]. rewrite <-Hfound in *.
    destruct (Download.sort_by_key found) as [|c rest] eqn:Hs; [done|].
    intros [= <-].
    assert (c ∈ found) as Hcin by (apply sort_by_key_elem; rewrite Hs; apply list_elem_of_here).
    destruct (Hf c Hcin) as (Hin & Hw & Hv & Hp).
    exists c.1.2, c.2. repeat (split; [done|]).
    intros pkg' p' Hin' Hw' Hp'.
    destruct (Hall pkg' Hin' Hw' p' Hp') as (v' & Hv' & Hc').
    exists v'. split; [done|].
    apply (sort_by_key_first found c rest Hs (pkg', v', p') Hc').
  - destruct found as [|c0 found0]; [|by destruct (Download.sort_by_key _)].
    intros _ pkg Hin Hw. destruct (wheel_priority _ pkg) as [p|] eqn:Hp; [|done].
    destruct (Hall pkg Hin Hw p Hp) as (v & _ & Hc'). by apply elem_of_nil in Hc'.
Qed.

End best_wheel.

Lemma best_wheel_is_best_witness :
  ∃ v p,
    nth 1 demo_candidates (Upstream.PagePackage "" "" None None None []) ∈ demo_candidates
    ∧ Upstream.pp_package_type
        (nth 1 demo_candidates (Upstream.PagePackage "" "" None None None []))
      = Some "wheel"
    ∧ wheel_version demo_version
        (nth 1 demo_candidates (Upstream.PagePackage "" "" None None None [])) = Some v
    ∧ wheel_priority demo_tags
        (nth 1 demo_candidates (Upstream.PagePackage "" "" None None None [])) = Some p
    ∧ ∀ pkg' p', pkg' ∈ demo_candidates → Upstream.pp_package_type pkg' = Some "wheel" →
        wheel_priority demo_tags pkg' = Some p' →
        ∃ v', wheel_version demo_version pkg' = Some v' ∧ at_least_as_good v p v' p'.
Proof.
  apply (proj1 (best_wheel_is_best [] demo_version demo_candidates (Some demo_tags))).
  vm_compute. reflexivity.
Defined.

(** ** The priority of a wheel *)

Lemma tag_priority_from (l : list Download.Tag) (k : nat) (m : gmap Download.Tag nat)
    (t : Download.Tag) (j : nat) :
  NoDup l →
  (fold_left (λ m it, <[it.2 := it.1]> m) (imap (λ i tag, (k + i, tag)) l) m) !! t
  = Some j
  ↔ (∃ i, j = k + i ∧ l !! i = Some t) ∨ ((t ∉ l) ∧ m !! t = Some j).
Proof.
  revert k m. induction l as [|x l IH]; intros k m Hnd.
  { cbn. split; [intros ?; right; split; [apply not_elem_of_nil|done]|].
    by intros [(i & _ & ?)|[_ ?]]. }
  apply NoDup_cons in Hnd as [Hx Hnd]. cbn [imap fold_left fst snd].
  rewrite (imap_ext _ (λ i tag, (S k + i, tag))) by (intros; cbn; f_equal; lia).
  rewrite (IH (S k) _ Hnd). split.
  - intros [(i & -> & Hi)|[Hnin Hl]].
    + left. exists (S i). split; [lia|done].
    + destruct (decide (t = x)) as [->|Hne].
      * rewrite lookup_insert_eq in Hl. injection Hl as <-.
        left. exists 0. split; [lia|done].
      * rewrite lookup_insert_ne in Hl by done. right. split; [|done].
        by apply not_elem_of_cons.
  - intros [(i & -> & Hi)|[[Hne Hnin]%not_elem_of_cons Hl]].
    + destruct i as [|i]; cbn in Hi.
      * injection Hi as <-. right. split; [done|].
        by rewrite lookup_insert_eq.
      * left. exists i. split; [lia|done].
    + right. split; [done|]. by rewrite lookup_insert_ne.
Qed.

Lemma tag_priority_lookup (tags : list Download.Tag) (t : Download.Tag) (i : nat) :
  NoDup tags → Download.tag_priority tags !! t = Some i ↔ tags !! i = Some t.
Proof.
  intros Hnd. unfold Download.tag_priority.
  rewrite (tag_priority_from tags 0 ∅ t i Hnd). split.
  - by intros [(i' & -> & ?)|[_ ?]].
  - intros H. left. by exists i.
Qed.

Lemma best_priority_from (tp : gmap Download.Tag nat) (wheel_tags : list Download.Tag)
    (best : option nat) :
  let g := λ (best : option nat) tag,
             match tp !! tag with
             | Some i => Some (match best with Some b => Nat.min b i | None => i end)
             | None => best
             end in
  match fold_left g wheel_tags best with
  | None => best = None ∧ ∀ t, t ∈ wheel_tags → tp !! t = None
  | Some p =>
      (best = Some p ∨ ∃ t, t ∈ wheel_tags ∧ tp !! t = Some p)
      ∧ (∀ q, best = Some q → p ≤ q)
      ∧ ∀ t i, t ∈ wheel_tags → tp !! t = Some i → p ≤ i
  end.
Proof.
  cbn zeta. revert best. induction wheel_tags as [|x l IH]; intros best.
  { cbn. destruct best as [b|].
    - split; [by left|]. split; [by intros q [= ->]|by intros t i ?%elem_of_nil].
    - split; [done|by intros t ?%elem_of_nil]. }
  cbn [fold_left]. specialize (IH (match tp !! x with
                                   | Some i => Some (match best with
                                                     | Some b => Nat.min b i
                                                     | None => i
                                                     end)
                                   | None => best
                                   end)).
  destruct (fold_left _ l _) as [p|].
  - destruct IH as (Hfrom & Hbest & Hall). split; [|split].
    + destruct Hfrom as [Hfrom|(t & Hin & Ht)].
      * destruct (tp !! x) as [i|] eqn:Hx; [|by left].
        destruct best as [b|]; injection Hfrom as <-.
        -- destruct (Nat.min_spec b i) as [[_ ->]|[_ ->]]; [by left|].
           right. exists x. split; [apply list_elem_of_here|done].
        -- right. exists x. split; [apply list_elem_of_here|done].
      * right. exists t. split; [by apply list_elem_of_further|done].
    + intros q ->. destruct (tp !! x) as [i|]; [|by apply Hbest].
      specialize (Hbest _ eq_refl). lia.
    + intros t i [->|Hin]%elem_of_cons Ht; [|by apply (Hall t)].
      rewrite Ht in Hbest. destruct best as [b|]; specialize (Hbest _ eq_refl); lia.
  - destruct IH as [Hnone Hall]. destruct (tp !! x) as [i|] eqn:Hx; [done|].
    split; [done|]. intros t [->|Hin]%elem_of_cons; [done|by apply Hall].
Qed.

(** Property X24.
    For a list of compatible tags without repetition, the priority of
    a wheel is the least index, in that list, of a tag of the wheel;
    the wheel has no priority exactly when none of its tags is in the
    list. *)
Theorem priority_is_least_index (tags wheel_tags : list Download.Tag) :
  NoDup tags →
  match Download.best_priority (Download.tag_priority tags) wheel_tags with
  | None => ∀ t, t ∈ wheel_tags → t ∉ tags
  | Some p =>
      (∃ t, t ∈ wheel_tags ∧ tags !! p = Some t)
      ∧ ∀ t i, t ∈ wheel_tags → tags !! i = Some t → p ≤ i
  end.
Proof.
  intros Hnd. unfold Download.best_priority.
  pose proof (best_priority_from (Download.tag_priority tags) wheel_tags None) as H.
  cbn zeta in H. destruct (fold_left _ wheel_tags None) as [p|].
  - destruct H as ([?|(t & Hin & Ht)] & _ & Hall); [done|]. split.
    + exists t. split; [done|]. by apply tag_priority_lookup.
    + intros t' i Hin' Hi. apply (Hall t'); [done|]. by apply tag_priority_lookup.
  - destruct H as [_ Hall]. intros t Hin (i & Hi)%list_elem_of_lookup.
    apply (tag_priority_lookup tags t i Hnd) in Hi. rewrite (Hall t Hin) in Hi. done.
Qed.

Lemma priority_is_least_index_witness :
  match Download.best_priority (Download.tag_priority demo_tags)
          [Download.tag "py3" "none" "any"] with
  | None => ∀ t, t ∈ [Download.tag "py3" "none" "any"] → t ∉ demo_tags
  | Some p =>
      (∃ t, t ∈ [Download.tag "py3" "none" "any"] ∧ demo_tags !! p = Some t)
      ∧ ∀ t i, t ∈ [Download.tag "py3" "none" "any"] → demo_tags !! i = Some t → p ≤ i
  end.
Proof.
  apply (priority_is_least_index demo_tags [Download.tag "py3" "none" "any"]).
  by_evaluation.
Defined.
(** ** Two entries with the same new path *)





(** ** The two rewritings of a file name *)

(** Property X26.
    The page of a project and [rewrite_wheel_filename] rewrite a file
    name that starts with the original name and a dash in the same
    way, when the original name holds no dash: both put the new name
    in the place of the original name. *)
Theorem listing_rewrite_agrees (rule : Config.RenameRule) (rest : string) :
  has_char "-" (Config.original rule) = false →
  Html.listed_filename (Some rule) (Config.original rule +:+ "-" +:+ rest)
  = Stream.rewrite_wheel_filename (Config.original rule +:+ "-" +:+ rest)
      (Config.original rule) (Config.new_name rule)
  ∧ Html.listed_filename (Some rule) (Config.original rule +:+ "-" +:+ rest)
    = Config.new_name rule +:+ "-" +:+ rest.
Proof.
  intros Ho. rewrite listed_filename_prefix. split; [|done].
  unfold Stream.rewrite_wheel_filename.
  rewrite !str_app_cons, !str_app_nil_l, !split_app_sep by done. cbn [nth].
  rewrite !bool_decide_eq_true_2 by done. cbn [Stream.set_first].
  by rewrite !join_dash_cons, !str_app_cons, !str_app_nil_l.
Qed.

Lemma listing_rewrite_agrees_witness :
  Html.listed_filename (Some demo_rule) ("demo" +:+ "-" +:+ "1.0.0-py3-none-any.whl")
  = Stream.rewrite_wheel_filename ("demo" +:+ "-" +:+ "1.0.0-py3-none-any.whl")
      "demo" "demo_v1"
  ∧ Html.listed_filename (Some demo_rule) ("demo" +:+ "-" +:+ "1.0.0-py3-none-any.whl")
    = "demo_v1" +:+ "-" +:+ "1.0.0-py3-none-any.whl".
Proof. apply (listing_rewrite_agrees demo_rule "1.0.0-py3-none-any.whl"). reflexivity. Defined.
(** ** The URL asked of an upstream *)

Lemma rstrip_slashes (s : string) :
  ∃ k, s = Py.rstrip "/" s +:+ slashes k ∧ Py.last_char (Py.rstrip "/" s) ≠ Some "/"%char.
Proof.
  induction s as [|x s (k & Hs & Hl)]; [by exists 0|].
  cbn [Py.rstrip]. destruct (Py.rstrip "/" s) as [|y r] eqn:Hr.
  - rewrite str_app_nil_l in Hs. destruct (Ascii.eqb_spec x "/") as [->|Hne].
    + exists (S k). by rewrite Hs.
    + exists k. rewrite str_app_cons, str_app_nil_l, <-Hs. split; [done|].
      cbn. congruence.
  - exists k. rewrite str_app_cons, <-Hs. split; [done|]. exact Hl.
Qed.

Lemma rstrip_app_slashes (base : string) (k : nat) :
  Py.last_char base ≠ Some "/"%char → Py.rstrip "/" (base +:+ slashes k) = base.
Proof.
  intros Hl. induction base as [|x base IH].
  - rewrite str_app_nil_l. induction k as [|k IHk]; [done|]. cbn. by rewrite IHk.
  - rewrite str_app_cons. cbn [Py.rstrip].
    destruct base as [|y base].
    + rewrite str_app_nil_l.
      assert (Py.rstrip "/" (slashes k) = "") as ->.
      { clear. induction k as [|k IHk]; [done|]. cbn. by rewrite IHk. }
      destruct (Ascii.eqb_spec x "/") as [->|Hne]; [done|done].
    + rewrite IH; [done|]. exact Hl.
Qed.

(** Property X27.
    The URL asked of an upstream for a project is the upstream URL
    without its trailing slashes, a slash, the project and a slash:
    the number of slashes that end the configured URL plays no part. *)
Theorem project_url_trailing_slashes (upstream_url project : string) :
  ∃ base k,
    upstream_url = base +:+ slashes k
    ∧ Py.last_char base ≠ Some "/"%char
    ∧ ∀ j, Upstream.project_url (base +:+ slashes j) project
           = base +:+ "/" +:+ project +:+ "/".
Proof.
  destruct (rstrip_slashes upstream_url) as (k & Hu & Hl).
  exists (Py.rstrip "/" upstream_url), k. split; [done|]. split; [done|].
  intros j. unfold Upstream.project_url. by rewrite rstrip_app_slashes.
Qed.

(** ** The two readers of a wheel filename *)

(** Property X28.
    On a filename that ends in [.whl] and holds no slash,
    [parse_wheel_tags] reads the tags from the components that
    [_parse_wheel_filename] returns; where the latter refuses the
    filename for having fewer than five segments, the former returns
    no tag, and where the latter fails on an empty third segment, so
    does the former. *)
Theorem tag_reader_agrees_with_parser (body : string) :
  has_char "/" body = false → body ≠ "" →
  match Rename._parse_wheel_filename (body +:+ ".whl") with
  | Ok c =>
      Download.parse_wheel_tags (body +:+ ".whl")
      = Ok (Download.tag (Rename.python c) (Rename.abi c)
              <$> Py.split "." (Rename.platform c))
  | Raise e =>
      Download.parse_wheel_tags (body +:+ ".whl")
      = if bool_decide (e = InvalidWheelFilename) then Ok [] else Raise e
  end.
Proof.
  intros Hs Hne. unfold Rename._parse_wheel_filename, Download.parse_wheel_tags.
  rewrite path_stem_whl, drop_last_whl by done. cbv zeta.
  destruct (length (Py.split "-" body) <? 5); [done|].
  destruct (6 <=? length (Py.split "-" body)); [|done].
  destruct (Py.head (nth 2 (Py.split "-" body) "")) as [c|]; [|done].
  cbn [bind]. by destruct (Py.isdigit c).
Qed.

Lemma tag_reader_agrees_with_parser_witness :
  match Rename._parse_wheel_filename ("demo-1.0-1-cp311-abi3-linux_x86_64" +:+ ".whl") with
  | Ok c =>
      Download.parse_wheel_tags ("demo-1.0-1-cp311-abi3-linux_x86_64" +:+ ".whl")
      = Ok (Download.tag (Rename.python c) (Rename.abi c)
              <$> Py.split "." (Rename.platform c))
  | Raise e =>
      Download.parse_wheel_tags ("demo-1.0-1-cp311-abi3-linux_x86_64" +:+ ".whl")
      = if bool_decide (e = InvalidWheelFilename) then Ok [] else Raise e
  end.
Proof.
  apply (tag_reader_agrees_with_parser "demo-1.0-1-cp311-abi3-linux_x86_64");
    [reflexivity|discriminate].
Defined.
